(** * Rentify Stripe backend (server.js): request handlers over an external
      payment platform

    The handlers of server.js are embedded as functions in a small monad
    that threads the state of the external platform, records every SDK
    call that is issued, and propagates the exception a failed call throws
    to the handler's [catch] block. *)

From Stdlib Require Import ZArith QArith Sorted Permutation.
From stdpp Require Import base option list strings gmap pretty.

Local Open Scope Z_scope.
Local Set Warnings "-register-all".

(** ** JavaScript values

    The values that reach the handlers through a JSON body, or that the
    handlers test for truthiness. Numbers are integers: amounts are minor
    currency units and timestamps are seconds. *)

Inductive JsVal : Type :=
| JUndefined
| JNull
| JBool (b : bool)
| JNum (n : Z)
| JStr (s : string)
| JObj (fields : list (string * JsVal))
| JArr (items : list JsVal).

(** [!!v] *)
Definition truthy (v : JsVal) : bool :=
  match v with
  | JUndefined | JNull => false
  | JBool b => b
  | JNum n => negb (Z.eqb n 0)
  | JStr s => negb (String.eqb s "")
  | JObj _ | JArr _ => true
  end.

(** [a === b]. An object of the request is never the same reference as
    an object of a response, so objects compare unequal. *)
Definition strict_eq (a b : JsVal) : bool :=
  match a, b with
  | JUndefined, JUndefined => true
  | JNull, JNull => true
  | JBool x, JBool y => Bool.eqb x y
  | JNum x, JNum y => Z.eqb x y
  | JStr x, JStr y => String.eqb x y
  | _, _ => false
  end.

(** [a || b] *)
Definition js_or (a b : JsVal) : JsVal := if truthy a then a else b.

(** [req.body]: the object express.json() parsed. A key that is absent
    reads as [undefined]. *)
Definition get (req_body : gmap string JsVal) (k : string) : JsVal :=
  default JUndefined (req_body !! k).

(** A destructuring default [{ k = d } = req.body] applies when the
    property is [undefined]. *)
Definition with_default (v d : JsVal) : JsVal :=
  match v with
  | JUndefined => d
  | _ => v
  end.

(** [`${n}`] for an integer. *)
Definition template_of_Z (n : Z) : string := pretty n.

(** [arr.sort(cmp)]: the built-in sort, which is stable. [x] moves behind
    [y] when [cmp x y > 0]; elements that compare equal keep their order. *)
Fixpoint js_sort_insert {A} (cmp : A -> A -> Z) (x : A) (l : list A) : list A :=
  match l with
  | [] => [x]
  | y :: l' => if 0 <? cmp x y then y :: js_sort_insert cmp x l' else x :: l
  end.

Definition js_sort {A} (cmp : A -> A -> Z) (l : list A) : list A :=
  foldr (js_sort_insert cmp) [] l.

(** [process.env.K] *)
Definition process_env (env : gmap string string) (k : string) : JsVal :=
  match env !! k with
  | Some s => JStr s
  | None => JUndefined
  end.

(** ** Resources of the payment platform *)

(** A field the platform returns as an identifier, as the expanded
    object, or as [null]. *)
Inductive Expandable (A : Type) : Type :=
| ExNull
| ExId (id : string)
| ExObj (obj : A).
Arguments ExNull {A}.
Arguments ExId {A} id.
Arguments ExObj {A} obj.

Record StripeError : Type := { message : string }.

Record PaymentIntent : Type := {
  pi_id : string;
  pi_client_secret : JsVal;
  pi_transfer_group : JsVal
}.

Record Charge : Type := {
  ch_id : string;
  ch_amount : Z;
  ch_currency : string;
  ch_created : Z;
  ch_customer : JsVal;
  ch_payment_intent : Expandable PaymentIntent;
  ch_description : JsVal;
  ch_receipt_url : JsVal
}.

Record Refund : Type := {
  re_id : string;
  re_status : JsVal;
  re_amount : Z;
  re_currency : string;
  re_created : Z;
  re_payment_intent : Expandable PaymentIntent;
  re_charge : Expandable Charge
}.

Record Reversal : Type := {
  rv_id : string;
  rv_amount : Z;
  rv_created : Z
}.

Record Transfer : Type := {
  tr_id : string;
  tr_amount : Z;
  tr_currency : string;
  tr_created : Z;
  tr_source_transaction : Expandable Charge;
  (** [t.reversals?.data]; [None] when the field is missing *)
  tr_reversals : option (list Reversal)
}.

(** The argument of [stripe.paymentIntents.create]. *)
Record PaymentIntentParams : Type := {
  pp_amount : JsVal;
  pp_currency : JsVal;
  pp_customer : JsVal;
  pp_automatic_payment_methods_enabled : bool;
  pp_transfer_data_destination : JsVal;
  pp_transfer_group : string;
  pp_application_fee_amount : JsVal;
  pp_description : JsVal
}.

(** The SDK calls the handlers issue, with their arguments. *)
Inductive Call : Type :=
| PaymentIntentsCreate (params : PaymentIntentParams)
| RefundsCreate (payment_intent : JsVal)
| PaymentIntentsRetrieve (id : JsVal)
| TransfersListGroup (transfer_group : JsVal)
| TransfersCreateReversal (id : string) (amount : Z)
| ChargesList (customer : JsVal) (limit : Z)
| RefundsList (limit : Z) (expand : list string)
| TransfersListDestination (destination : JsVal) (limit : Z) (expand : list string)
| CustomersDel (id : JsVal)
| AccountsDel (id : JsVal).

(** ** Responses *)

(** One entry of a transaction history. [amountRm] is [amount / 100]. *)
Record Transaction : Type := {
  tx_id : string;
  tx_amount : Z;
  tx_amountRm : Q;
  tx_currency : string;
  tx_created : Z;
  tx_type : string;
  tx_direction : string;
  tx_paymentIntentId : Expandable PaymentIntent;
  tx_description : JsVal;
  tx_receiptUrl : JsVal
}.

(** [results] of the account deletion; [None] is a key never assigned. *)
Record DeleteResults : Type := {
  customerDeleted : option bool;
  connectAccountDeleted : option bool
}.

Inductive Body : Type :=
| ErrorBody (error : string)
| PaymentIntentBody (clientSecret : JsVal) (paymentIntentId : string)
    (transferGroup : string)
| RefundBody (success : bool) (refundId : string) (refundStatus : JsVal)
    (transferReversed : bool)
    (** [None]: no [reversal] key; [Some None]: [reversal: null] *)
    (reversal : option (option Reversal))
| TransactionsBody (transactions : list Transaction)
| DeleteBody (success : bool) (message : string)
    (** [None]: no [details] key *)
    (details : option DeleteResults)
| ConfigBody (publishableKey : JsVal).

Record Response : Type := { status : Z; body : Body }.

(** [res.json(b)] and [res.status(n).json(b)] *)
Definition json (b : Body) : Response := {| status := 200; body := b |}.
Definition status_json (n : Z) (b : Body) : Response := {| status := n; body := b |}.

(** ** The handler monad *)

Section Handlers.

(** The state of everything outside the process: the platform's
    resources and the clock. *)
Context {World : Type}.

(** An awaited SDK call either throws or resolves, and may change the
    platform either way. *)
Definition Upstream (A : Type) : Type := World -> (StripeError + A) * World.

Record Stripe : Type := {
  paymentIntents_create : PaymentIntentParams -> Upstream PaymentIntent;
  paymentIntents_retrieve : JsVal -> Upstream PaymentIntent;
  refunds_create : JsVal -> Upstream Refund;
  refunds_list : Z -> list string -> Upstream (list Refund);
  charges_list : JsVal -> Z -> Upstream (list Charge);
  transfers_list_group : JsVal -> Upstream (list Transfer);
  transfers_list_destination : JsVal -> Z -> list string -> Upstream (list Transfer);
  transfers_createReversal : string -> Z -> Upstream Reversal;
  customers_del : JsVal -> Upstream unit;
  accounts_del : JsVal -> Upstream unit
}.

Variable stripe : Stripe.
(** [Date.now()], in milliseconds. *)
Variable Date_now : World -> Z.

(** A computation inside a [try] block: the outcome, the platform
    afterwards, and the calls issued, oldest first. *)
Definition M (A : Type) : Type := World -> (StripeError + A) * World * list Call.

Definition ret {A} (a : A) : M A := fun w => (inr a, w, []).

Definition bind {A B} (m : M A) (k : A -> M B) : M B :=
  fun w =>
    match m w with
    | (inl e, w1, t1) => (inl e, w1, t1)
    | (inr a, w1, t1) =>
        match k a w1 with
        | (r, w2, t2) => (r, w2, t1 ++ t2)
        end
    end.

(** [await stripe.x.y(args)] *)
Definition await {A} (c : Call) (f : Upstream A) : M A :=
  fun w => match f w with (r, w1) => (r, w1, [c]) end.

(** [Date.now()] *)
Definition now : M Z := fun w => (inr (Date_now w), w, []).

(** An inner [try { m } catch (err) { h err }] whose handler does not
    throw. *)
Definition try_catch {A} (m : M A) (h : StripeError -> A) : M A :=
  fun w =>
    match m w with
    | (inl e, w1, t) => (inr (h e), w1, t)
    | (inr a, w1, t) => (inr a, w1, t)
    end.

(** A route: the response sent, the platform afterwards and the calls
    issued. *)
Definition Handler : Type := World -> Response * World * list Call.

(** The [try { ... } catch (err) { return res.status(500)... }] that
    wraps the whole body of a route. *)
Definition route (m : M Response) (h : StripeError -> Response) : Handler :=
  fun w =>
    match m w with
    | (inl e, w1, t) => (h e, w1, t)
    | (inr r, w1, t) => (r, w1, t)
    end.

Notation "x <- m ;; k" := (bind m (fun x => k))
  (at level 100, m at next level, right associativity).

(** *** POST /create-payment-intent *)

Definition create_payment_intent (req_body : gmap string JsVal) : Handler :=
  route
    (let amount := get req_body "amount" in
     let customerId := get req_body "customerId" in
     let ownerConnectAccountId := get req_body "ownerConnectAccountId" in
     let description := with_default (get req_body "description") (JStr "Rentify booking") in
     let currency := with_default (get req_body "currency") (JStr "myr") in
     let platformFee := with_default (get req_body "platformFee") (JNum 0) in
     if negb (truthy amount) || negb (truthy customerId)
        || negb (truthy ownerConnectAccountId)
     then ret (status_json 400 (ErrorBody "Missing fields"))
     else
       t <- now ;;
       let transferGroup := "booking_" +:+ template_of_Z t in
       let params :=
         {| pp_amount := amount;
            pp_currency := currency;
            pp_customer := customerId;
            pp_automatic_payment_methods_enabled := true;
            pp_transfer_data_destination := ownerConnectAccountId;
            pp_transfer_group := transferGroup;
            pp_application_fee_amount := platformFee;
            pp_description := description |} in
       paymentIntent <- await (PaymentIntentsCreate params)
                          (paymentIntents_create stripe params) ;;
       ret (json (PaymentIntentBody (pi_client_secret paymentIntent)
                    (pi_id paymentIntent) transferGroup)))
    (fun err => status_json 500 (ErrorBody (message err))).

(** *** POST /refund *)

(** The loop [for (const t of transfers.data) { reversal = await ... }];
    [reversal] is the variable the loop overwrites. *)
Fixpoint reverse_each (transfers : list Transfer) (reversal : option Reversal)
  : M (option Reversal) :=
  match transfers with
  | [] => ret reversal
  | t :: rest =>
      r <- await (TransfersCreateReversal (tr_id t) (tr_amount t))
             (transfers_createReversal stripe (tr_id t) (tr_amount t)) ;;
      reverse_each rest (Some r)
  end.

Definition refund (req_body : gmap string JsVal) : Handler :=
  route
    (let paymentIntentId := get req_body "paymentIntentId" in
     if negb (truthy paymentIntentId)
     then ret (status_json 400 (ErrorBody "Missing paymentIntentId"))
     else
       refund <- await (RefundsCreate paymentIntentId)
                   (refunds_create stripe paymentIntentId) ;;
       pi <- await (PaymentIntentsRetrieve paymentIntentId)
               (paymentIntents_retrieve stripe paymentIntentId) ;;
       let group := pi_transfer_group pi in
       if negb (truthy group)
       then ret (json (RefundBody true (re_id refund) (re_status refund) false None))
       else
         transfers <- await (TransfersListGroup group)
                        (transfers_list_group stripe group) ;;
         reversal <- reverse_each transfers None ;;
         ret (json (RefundBody true (re_id refund) (re_status refund)
                      (bool_decide (is_Some reversal)) (Some reversal))))
    (fun err => status_json 500 (ErrorBody (message err))).

(** *** POST /transactions/renter *)

(** [charge?.receipt_url || null] *)
Definition receipt_of (charge : Expandable Charge) : JsVal :=
  match charge with
  | ExObj c => js_or (ch_receipt_url c) JNull
  | _ => JNull
  end.

Definition payment_of_charge (c : Charge) : Transaction :=
  {| tx_id := ch_id c;
     tx_amount := ch_amount c;
     tx_amountRm := Qmake (ch_amount c) 100;
     tx_currency := ch_currency c;
     tx_created := ch_created c;
     tx_type := "payment";
     tx_direction := "out";
     tx_paymentIntentId := ch_payment_intent c;
     tx_description := js_or (ch_description c) (JStr "Payment");
     tx_receiptUrl := js_or (ch_receipt_url c) JNull |}.

(** [r.charge && r.charge.customer === customerId], as the filter
    reads it. A charge that is only an identifier has no [customer]. *)
Definition refund_of_customer (customerId : JsVal) (r : Refund) : bool :=
  match re_charge r with
  | ExNull => false
  | ExId s => negb (String.eqb s "") && strict_eq JUndefined customerId
  | ExObj c => strict_eq (ch_customer c) customerId
  end.

Definition transaction_of_refund (r : Refund) : Transaction :=
  {| tx_id := re_id r;
     tx_amount := re_amount r;
     tx_amountRm := Qmake (re_amount r) 100;
     tx_currency := re_currency r;
     tx_created := re_created r;
     tx_type := "refund";
     tx_direction := "in";
     tx_paymentIntentId := re_payment_intent r;
     tx_description := JStr "Refund";
     tx_receiptUrl := receipt_of (re_charge r) |}.

(** [(a, b) => b.created - a.created] *)
Definition by_created_desc (a b : Transaction) : Z := tx_created b - tx_created a.

Definition transactions_renter (req_body : gmap string JsVal) : Handler :=
  route
    (let customerId := get req_body "customerId" in
     if negb (truthy customerId)
     then ret (status_json 400 (ErrorBody "Missing customerId"))
     else
       charges <- await (ChargesList customerId 50)
                    (charges_list stripe customerId 50) ;;
       let payments := map payment_of_charge charges in
       refundsList <- await (RefundsList 50 ["data.charge"])
                        (refunds_list stripe 50 ["data.charge"]) ;;
       let refunds :=
         map transaction_of_refund
           (List.filter (refund_of_customer customerId) refundsList) in
       let all := js_sort by_created_desc (payments ++ refunds) in
       ret (json (TransactionsBody all)))
    (fun err => status_json 500 (ErrorBody (message err))).

(** *** POST /transactions/owner *)

(** [charge?.payment_intent?.id ?? null] *)
Definition owner_pi (charge : Expandable Charge) : Expandable PaymentIntent :=
  match charge with
  | ExObj c =>
      match ch_payment_intent c with
      | ExObj p => ExId (pi_id p)
      | _ => ExNull
      end
  | _ => ExNull
  end.

Definition payout_of_transfer (t : Transfer) : Transaction :=
  {| tx_id := tr_id t;
     tx_amount := tr_amount t;
     tx_amountRm := Qmake (tr_amount t) 100;
     tx_currency := tr_currency t;
     tx_created := tr_created t;
     tx_type := "transfer";
     tx_direction := "in";
     tx_paymentIntentId := owner_pi (tr_source_transaction t);
     tx_description := JStr "Payout received";
     tx_receiptUrl := receipt_of (tr_source_transaction t) |}.

Definition transaction_of_reversal (t : Transfer) (rev : Reversal) : Transaction :=
  {| tx_id := rv_id rev;
     tx_amount := rv_amount rev;
     tx_amountRm := Qmake (rv_amount rev) 100;
     tx_currency := tr_currency t;
     tx_created := rv_created rev;
     tx_type := "reverse_transfer";
     tx_direction := "out";
     tx_paymentIntentId := owner_pi (tr_source_transaction t);
     tx_description := JStr "Payout reversed";
     tx_receiptUrl := receipt_of (tr_source_transaction t) |}.

(** The loop over [transfers.data], pushing onto [payouts] and
    [reversals]. *)
Fixpoint owner_loop (transfers : list Transfer) (payouts reversals : list Transaction)
  : list Transaction * list Transaction :=
  match transfers with
  | [] => (payouts, reversals)
  | t :: rest =>
      let payouts := payouts ++ [payout_of_transfer t] in
      let revs := default [] (tr_reversals t) in
      let reversals :=
        fold_left (fun acc rev => acc ++ [transaction_of_reversal t rev]) revs reversals in
      owner_loop rest payouts reversals
  end.

Definition owner_expand : list string :=
  ["data.source_transaction.payment_intent"; "data.reversals"].

Definition transactions_owner (req_body : gmap string JsVal) : Handler :=
  route
    (let connectAccountId := get req_body "connectAccountId" in
     if negb (truthy connectAccountId)
     then ret (status_json 400 (ErrorBody "Missing connectAccountId"))
     else
       transfers <- await (TransfersListDestination connectAccountId 50 owner_expand)
                      (transfers_list_destination stripe connectAccountId 50 owner_expand) ;;
       let '(payouts, reversals) := owner_loop transfers [] [] in
       let all := js_sort by_created_desc (payouts ++ reversals) in
       ret (json (TransactionsBody all)))
    (fun err => status_json 500 (ErrorBody (message err))).

(** *** DELETE /stripe/delete-accounts *)

Definition delete_accounts (req_body : gmap string JsVal) : Handler :=
  route
    (let customerId := get req_body "customerId" in
     let connectAccountId := get req_body "connectAccountId" in
     if negb (truthy customerId) && negb (truthy connectAccountId)
     then ret (status_json 400 (DeleteBody false "No Stripe IDs provided." None))
     else
       let results := {| customerDeleted := None; connectAccountDeleted := None |} in
       results <-
         (if truthy customerId
          then
            try_catch
              (_ <- await (CustomersDel customerId) (customers_del stripe customerId) ;;
               ret {| customerDeleted := Some true;
                      connectAccountDeleted := connectAccountDeleted results |})
              (fun err => {| customerDeleted := Some false;
                             connectAccountDeleted := connectAccountDeleted results |})
          else ret results) ;;
       results <-
         (if truthy connectAccountId
          then
            try_catch
              (_ <- await (AccountsDel connectAccountId)
                      (accounts_del stripe connectAccountId) ;;
               ret {| customerDeleted := customerDeleted results;
                      connectAccountDeleted := Some true |})
              (fun err => {| customerDeleted := customerDeleted results;
                             connectAccountDeleted := Some false |})
          else ret {| customerDeleted := customerDeleted results;
                      connectAccountDeleted := Some true |}) ;;
       ret (json (DeleteBody true "Deletion attempted." (Some results))))
    (fun err => status_json 500 (DeleteBody false (message err) None)).

(** *** GET /config *)

Definition config (env : gmap string string) : Handler :=
  fun w => (json (ConfigBody (process_env env "STRIPE_PUBLISHABLE_KEY")), w, []).

End Handlers.

(** ** Start-up *)

Inductive Startup : Type :=
| Exited (code : Z)
| Listening (port : Z).

(** The top level of the module: [process.exit(1)] when the secret key is
    missing, otherwise the routes are served on [port]. *)
Definition port : Z := 4242.

Definition startup (env : gmap string string) : Startup :=
  if negb (truthy (process_env env "STRIPE_SECRET_KEY"))
  then Exited 1
  else Listening port.

(** ** Vocabulary of the statements *)

(** The property [k] of the body is absent, or holds a falsy value. *)
Definition missing_or_falsy (req_body : gmap string JsVal) (k : string) : Prop :=
  req_body !! k = None \/ exists v, req_body !! k = Some v /\ truthy v = false.

(** The parameters POST /create-payment-intent sends upstream for a body
    read at clock reading [t]. *)
Definition create_params (req_body : gmap string JsVal) (t : Z) : PaymentIntentParams :=
  {| pp_amount := get req_body "amount";
     pp_currency := with_default (get req_body "currency") (JStr "myr");
     pp_customer := get req_body "customerId";
     pp_automatic_payment_methods_enabled := true;
     pp_transfer_data_destination := get req_body "ownerConnectAccountId";
     pp_transfer_group := "booking_" +:+ template_of_Z t;
     pp_application_fee_amount := with_default (get req_body "platformFee") (JNum 0);
     pp_description := with_default (get req_body "description") (JStr "Rentify booking") |}.

(** The reversal call the loop of POST /refund issues for [t]. *)
Definition reversal_call (t : Transfer) : Call :=
  TransfersCreateReversal (tr_id t) (tr_amount t).

Definition is_reversal_call (c : Call) : bool :=
  match c with
  | TransfersCreateReversal _ _ => true
  | _ => false
  end.

(** [transferGroup] of a response of POST /create-payment-intent. *)
Definition transferGroup_of (r : Response) : option string :=
  match body r with
  | PaymentIntentBody _ _ g => Some g
  | _ => None
  end.

(** The comparator [(a, b) => key(b) - key(a)], and the order it asks
    for: larger keys first, equal keys next to one another. *)
Definition desc_by {A} (key : A -> Z) (a b : A) : Z := key b - key a.
Definition later_first {A} (key : A -> Z) (a b : A) : Prop := key b <= key a.

(** Later creation times first; equal times may follow one another. *)
Definition created_desc (l : list Transaction) : Prop :=
  StronglySorted (later_first tx_created) l.

(** Two requests handled one after the other. *)
Definition back_to_back {World : Type} (h1 h2 : @Handler World) (w : World)
  : Response * Response :=
  match h1 w with
  | (r1, w1, _) =>
      match h2 w1 with
      | (r2, _, _) => (r1, r2)
      end
  end.

Section Vocabulary.

Context {World : Type}.
Variable stripe : @Stripe World.

(** The platform accepts the reversals of [ts] one after the other,
    from [w] on, answering with the records [rs]. *)
Inductive reversals_succeed : World -> list Transfer -> list Reversal -> World -> Prop :=
| reversals_nil w : reversals_succeed w [] [] w
| reversals_cons w t r w1 ts rs w2 :
    transfers_createReversal stripe (tr_id t) (tr_amount t) w = (inr r, w1) ->
    reversals_succeed w1 ts rs w2 ->
    reversals_succeed w (t :: ts) (r :: rs) w2.

End Vocabulary.

(** ** A scripted platform

    A small stand-in for the payment platform, used to run the routes on
    concrete requests. *)

Record Mock : Type := {
  mk_clock : Z;
  (** the SDK methods that reject *)
  mk_failing : list string;
  (** [transfer_group] of the stored payment intent *)
  mk_group : JsVal;
  mk_transfers : list Transfer;
  (** transfers whose reversal is rejected *)
  mk_irreversible : list string;
  mk_charges : list Charge;
  mk_refunds : list Refund;
  (** identifiers reversed so far, latest first *)
  mk_reversed : list string
}.

Definition mk_fails (name : string) (w : Mock) : bool :=
  existsb (String.eqb name) (mk_failing w).

Definition mk_answer {A} (name : string) (a : A) : Mock -> (StripeError + A) * Mock :=
  fun w =>
    if mk_fails name w
    then (inl {| message := name +:+ " rejected" |}, w)
    else (inr a, w).

Definition mk_createReversal (id : string) (amount : Z) : Mock -> (StripeError + Reversal) * Mock :=
  fun w =>
    if existsb (String.eqb id) (mk_irreversible w)
    then (inl {| message := "cannot reverse " +:+ id |}, w)
    else (inr {| rv_id := "trr_" +:+ id; rv_amount := amount; rv_created := mk_clock w |},
          {| mk_clock := mk_clock w;
             mk_failing := mk_failing w;
             mk_group := mk_group w;
             mk_transfers := mk_transfers w;
             mk_irreversible := mk_irreversible w;
             mk_charges := mk_charges w;
             mk_refunds := mk_refunds w;
             mk_reversed := id :: mk_reversed w |}).

Definition mock_stripe : @Stripe Mock :=
  {| paymentIntents_create := fun p w =>
       mk_answer "paymentIntents.create"
         {| pi_id := "pi_1"; pi_client_secret := JStr "pi_1_secret";
            pi_transfer_group := JStr (pp_transfer_group p) |} w;
     paymentIntents_retrieve := fun _ w =>
       mk_answer "paymentIntents.retrieve"
         {| pi_id := "pi_1"; pi_client_secret := JStr "pi_1_secret";
            pi_transfer_group := mk_group w |} w;
     refunds_create := fun _ =>
       mk_answer "refunds.create"
         {| re_id := "re_1"; re_status := JStr "succeeded"; re_amount := 10000;
            re_currency := "myr"; re_created := 1700000000;
            re_payment_intent := ExId "pi_1"; re_charge := ExId "ch_1" |};
     refunds_list := fun _ _ w => mk_answer "refunds.list" (mk_refunds w) w;
     charges_list := fun _ _ w => mk_answer "charges.list" (mk_charges w) w;
     transfers_list_group := fun _ w => mk_answer "transfers.list" (mk_transfers w) w;
     transfers_list_destination := fun _ _ _ w =>
       mk_answer "transfers.list" (mk_transfers w) w;
     transfers_createReversal := mk_createReversal;
     customers_del := fun _ => mk_answer "customers.del" tt;
     accounts_del := fun _ => mk_answer "accounts.del" tt |}.

Definition mock (failing : list string) (group : JsVal) (transfers : list Transfer)
    (irreversible : list string) (charges : list Charge) (refunds : list Refund) : Mock :=
  {| mk_clock := 1700000000000;
     mk_failing := failing;
     mk_group := group;
     mk_transfers := transfers;
     mk_irreversible := irreversible;
     mk_charges := charges;
     mk_refunds := refunds;
     mk_reversed := [] |}.

Definition booking_request (amount platformFee : Z) : gmap string JsVal :=
  {[ "amount" := JNum amount;
     "customerId" := JStr "cus_1";
     "ownerConnectAccountId" := JStr "acct_1";
     "platformFee" := JNum platformFee ]}.

(** Sample resources. *)

Definition transfer_1 : Transfer :=
  {| tr_id := "tr_1"; tr_amount := 9500; tr_currency := "myr"; tr_created := 1700000100;
     tr_source_transaction := ExNull; tr_reversals := None |}.

Definition transfer_2 : Transfer :=
  {| tr_id := "tr_2"; tr_amount := 4000; tr_currency := "myr"; tr_created := 1700000300;
     tr_source_transaction := ExNull;
     tr_reversals := Some [{| rv_id := "trr_9"; rv_amount := 4000; rv_created := 1700000300 |}] |}.

Definition charge_of (id customer : string) (created : Z) : Charge :=
  {| ch_id := id; ch_amount := 10000; ch_currency := "myr"; ch_created := created;
     ch_customer := JStr customer; ch_payment_intent := ExId "pi_1";
     ch_description := JNull; ch_receipt_url := JNull |}.

Definition refund_of (id : string) (created : Z) (charge : Charge) : Refund :=
  {| re_id := id; re_status := JStr "succeeded"; re_amount := 10000; re_currency := "myr";
     re_created := created; re_payment_intent := ExId "pi_1"; re_charge := ExObj charge |}.

Definition refund_request : gmap string JsVal := {[ "paymentIntentId" := JStr "pi_1" ]}.

(** ** The onboarding and card routes

    The remaining routes of server.js relay one SDK call each. *)

(** [a ?? b] *)
Definition js_nullish (a b : JsVal) : JsVal :=
  match a with
  | JUndefined | JNull => b
  | _ => a
  end.

Record Customer : Type := { cu_id : string }.
Record Account : Type := { ac_id : string }.
Record AccountLink : Type := { al_url : string }.
Record SetupIntent : Type := { si_client_secret : JsVal }.
Record EphemeralKey : Type := { ek_secret : JsVal }.
Record PaymentMethod : Type := { pm_id : string; pm_type : string }.

(** The SDK calls of these routes, with their arguments. *)
Inductive SetupCall : Type :=
| CustomersCreate (email name metadata_userId : JsVal)
| AccountsCreate (type country : string) (email : JsVal) (business_type : string)
    (card_payments_requested transfers_requested : bool)
| AccountLinksCreate (account : JsVal) (refresh_url return_url type : string)
| SetupIntentsCreate (customer : JsVal) (automatic_payment_methods_enabled : bool)
| EphemeralKeysCreate (customer : JsVal) (apiVersion : string)
| PaymentMethodsList (customer : string) (type : string)
| PaymentMethodsDetach (id : JsVal).

Inductive SetupBody : Type :=
| SetupError (error : string)
| CustomerIdBody (customerId : string)
| AccountIdBody (accountId : string)
| UrlBody (url : string)
| ClientSecretBody (clientSecret : JsVal)
| EphemeralKeyBody (ephemeralKey : JsVal)
| MethodsBody (methods : list PaymentMethod)
| DetachedBody (success : bool) (id : string).

Record SetupResponse : Type := { su_status : Z; su_body : SetupBody }.

Definition apiVersion : string := "2024-09-30.acacia".

Section SetupRoutes.

Context {World : Type}.

Record StripeSetup : Type := {
  customers_create : JsVal -> JsVal -> JsVal -> @Upstream World Customer;
  accounts_create : JsVal -> @Upstream World Account;
  accountLinks_create : JsVal -> @Upstream World AccountLink;
  setupIntents_create : JsVal -> @Upstream World SetupIntent;
  ephemeralKeys_create : JsVal -> string -> @Upstream World EphemeralKey;
  paymentMethods_list : string -> string -> @Upstream World (list PaymentMethod);
  paymentMethods_detach : JsVal -> @Upstream World PaymentMethod
}.

Variable sdk : StripeSetup.

Definition SetupHandler : Type := World -> SetupResponse * World * list SetupCall.

(** [try { const x = await call; return res.json(ok x) }
     catch (err) { return res.status(500).json({ error: err.message }) }] *)
Definition relay {A} (c : SetupCall) (f : @Upstream World A) (ok : A -> SetupBody)
  : SetupHandler :=
  fun w =>
    match f w with
    | (inl err, w1) => ({| su_status := 500; su_body := SetupError (message err) |}, w1, [c])
    | (inr a, w1) => ({| su_status := 200; su_body := ok a |}, w1, [c])
    end.

(** POST /create-stripe-customer *)
Definition create_stripe_customer (req_body : gmap string JsVal) : SetupHandler :=
  let email := get req_body "email" in
  let name := get req_body "name" in
  let userId := get req_body "userId" in
  relay (CustomersCreate email name (js_nullish userId (JStr "")))
    (customers_create sdk email name (js_nullish userId (JStr "")))
    (fun customer => CustomerIdBody (cu_id customer)).

(** POST /create-connect-account *)
Definition create_connect_account (req_body : gmap string JsVal) : SetupHandler :=
  let email := get req_body "email" in
  relay (AccountsCreate "standard" "MY" email "individual" true true)
    (accounts_create sdk email)
    (fun account => AccountIdBody (ac_id account)).

(** POST /create-connect-account-link *)
Definition create_connect_account_link (req_body : gmap string JsVal) : SetupHandler :=
  let accountId := get req_body "accountId" in
  relay (AccountLinksCreate accountId "https://example.com/reauth"
           "https://example.com/return" "account_onboarding")
    (accountLinks_create sdk accountId)
    (fun link => UrlBody (al_url link)).

(** POST /create-setup-intent *)
Definition create_setup_intent (req_body : gmap string JsVal) : SetupHandler :=
  let customerId := get req_body "customerId" in
  relay (SetupIntentsCreate customerId true)
    (setupIntents_create sdk customerId)
    (fun setupIntent => ClientSecretBody (si_client_secret setupIntent)).

(** POST /create-ephemeral-key *)
Definition create_ephemeral_key (req_body : gmap string JsVal) : SetupHandler :=
  let customerId := get req_body "customerId" in
  relay (EphemeralKeysCreate customerId apiVersion)
    (ephemeralKeys_create sdk customerId apiVersion)
    (fun key => EphemeralKeyBody (ek_secret key)).

(** GET /list-payment-methods/:customerId; the argument is
    [req.params.customerId]. *)
Definition list_payment_methods (customerId : string) : SetupHandler :=
  relay (PaymentMethodsList customerId "card")
    (paymentMethods_list sdk customerId "card")
    (fun methods => MethodsBody methods).

(** POST /detach-payment-method *)
Definition detach_payment_method (req_body : gmap string JsVal) : SetupHandler :=
  relay (PaymentMethodsDetach (get req_body "paymentMethodId"))
    (paymentMethods_detach sdk (get req_body "paymentMethodId"))
    (fun detached => DetachedBody true (pm_id detached)).

End SetupRoutes.

(** The scripted platform for these routes. *)
Definition mock_setup : @StripeSetup Mock :=
  {| customers_create := fun _ _ _ => mk_answer "customers.create" {| cu_id := "cus_1" |};
     accounts_create := fun _ => mk_answer "accounts.create" {| ac_id := "acct_1" |};
     accountLinks_create := fun _ =>
       mk_answer "accountLinks.create" {| al_url := "https://connect.example/onboard" |};
     setupIntents_create := fun _ =>
       mk_answer "setupIntents.create" {| si_client_secret := JStr "seti_1_secret" |};
     ephemeralKeys_create := fun _ _ =>
       mk_answer "ephemeralKeys.create" {| ek_secret := JStr "ek_1" |};
     paymentMethods_list := fun _ _ =>
       mk_answer "paymentMethods.list" [{| pm_id := "pm_1"; pm_type := "card" |}];
     paymentMethods_detach := fun _ =>
       mk_answer "paymentMethods.detach" {| pm_id := "pm_1"; pm_type := "card" |} |}.

(** ** Further vocabulary *)

(** The calls POST /refund may issue once the refund itself is made. *)
Definition follows_refund (c : Call) : bool :=
  match c with
  | PaymentIntentsRetrieve _ | TransfersListGroup _ | TransfersCreateReversal _ _ => true
  | _ => false
  end.

(** Whether an awaited call resolved. *)
Definition accepted {A} (r : StripeError + A) : bool :=
  match r with
  | inl _ => false
  | inr _ => true
  end.

(** The history entries the owner route derives from one transfer's
    reversals. *)
Definition reversals_of_transfer (t : Transfer) : list Transaction :=
  map (transaction_of_reversal t) (default [] (tr_reversals t)).

(** ** Properties of POST /create-payment-intent *)

Lemma missing_or_falsy_get (req_body : gmap string JsVal) (k : string) :
  missing_or_falsy req_body k <-> truthy (get req_body k) = false.
Proof.
  unfold missing_or_falsy, get. destruct (req_body !! k) as [v|]; simpl.
  - split.
    + intros [H | (v' & H & Hv)]; [discriminate | congruence].
    + intros H. right. exists v. auto.
  - split; auto.
Qed.

Section CreatePaymentIntent.

Context {World : Type}.
Variable stripe : @Stripe World.
Variable Date_now : World -> Z.

Lemma create_payment_intent_rejected req_body w :
  truthy (get req_body "amount") = false
  \/ truthy (get req_body "customerId") = false
  \/ truthy (get req_body "ownerConnectAccountId") = false ->
  create_payment_intent stripe Date_now req_body w
  = (status_json 400 (ErrorBody "Missing fields"), w, []).
Proof.
  intros H. unfold create_payment_intent, route.
  destruct H as [-> | [-> | ->]]; simpl;
    rewrite ?orb_true_r; reflexivity.
Qed.

Lemma create_payment_intent_accepted req_body w :
  truthy (get req_body "amount") = true ->
  truthy (get req_body "customerId") = true ->
  truthy (get req_body "ownerConnectAccountId") = true ->
  create_payment_intent stripe Date_now req_body w
  = match paymentIntents_create stripe (create_params req_body (Date_now w)) w with
    | (inl err, w1) =>
        (status_json 500 (ErrorBody (message err)), w1,
         [PaymentIntentsCreate (create_params req_body (Date_now w))])
    | (inr paymentIntent, w1) =>
        (json (PaymentIntentBody (pi_client_secret paymentIntent) (pi_id paymentIntent)
                 ("booking_" +:+ template_of_Z (Date_now w))), w1,
         [PaymentIntentsCreate (create_params req_body (Date_now w))])
    end.
Proof.
  intros Ha Hc Ho. unfold create_payment_intent, route, bind, now, await, ret.
  rewrite Ha, Hc, Ho. simpl. fold (create_params req_body (Date_now w)).
  destruct (paymentIntents_create stripe (create_params req_body (Date_now w)) w)
    as [[err | paymentIntent] w1]; reflexivity.
Qed.

(** The status is 400 only for a rejected body. *)
Lemma create_payment_intent_400 req_body w :
  status (create_payment_intent stripe Date_now req_body w).1.1 = 400 ->
  truthy (get req_body "amount") = false
  \/ truthy (get req_body "customerId") = false
  \/ truthy (get req_body "ownerConnectAccountId") = false.
Proof.
  intros H.
  destruct (truthy (get req_body "amount")) eqn:Ha; [| auto].
  destruct (truthy (get req_body "customerId")) eqn:Hc; [| auto].
  destruct (truthy (get req_body "ownerConnectAccountId")) eqn:Ho; [| auto].
  rewrite (create_payment_intent_accepted req_body w Ha Hc Ho) in H.
  destruct (paymentIntents_create stripe (create_params req_body (Date_now w)) w)
    as [[err | paymentIntent] w1]; simpl in H; discriminate.
Qed.

(** C5: a payment-initiation request in which amount, customerId or
    ownerConnectAccountId is missing or falsy is answered with status 400
    ("Missing fields"); no SDK call is issued and the platform is left
    as it was. *)
Theorem create_payment_intent_missing_fields req_body w :
  missing_or_falsy req_body "amount"
  \/ missing_or_falsy req_body "customerId"
  \/ missing_or_falsy req_body "ownerConnectAccountId" ->
  create_payment_intent stripe Date_now req_body w
  = (status_json 400 (ErrorBody "Missing fields"), w, []).
Proof.
  rewrite !missing_or_falsy_get. apply create_payment_intent_rejected.
Qed.

(** C7: the platform fee is not compared with the amount. For every
    request that passes the mandatory-field check, exactly one SDK call
    is issued, [paymentIntents.create], whose [application_fee_amount]
    is the [platformFee] of the body whatever its value ([0] when the
    body has none), and a rejection by the platform is answered with
    status 500 and the platform's message. *)
Theorem create_payment_intent_fee_not_checked req_body w :
  truthy (get req_body "amount") = true ->
  truthy (get req_body "customerId") = true ->
  truthy (get req_body "ownerConnectAccountId") = true ->
  let params := create_params req_body (Date_now w) in
  pp_application_fee_amount params = with_default (get req_body "platformFee") (JNum 0)
  /\ (create_payment_intent stripe Date_now req_body w).2 = [PaymentIntentsCreate params]
  /\ forall err w1,
       paymentIntents_create stripe params w = (inl err, w1) ->
       create_payment_intent stripe Date_now req_body w
       = (status_json 500 (ErrorBody (message err)), w1, [PaymentIntentsCreate params]).
Proof.
  intros Ha Hc Ho params. rewrite (create_payment_intent_accepted req_body w Ha Hc Ho).
  fold params. split; [reflexivity |]. split.
  - destruct (paymentIntents_create stripe params w) as [[err | p] w1]; reflexivity.
  - intros err w1 ->. reflexivity.
Qed.

(** C8: the local check rejects exactly the bodies in which amount,
    customerId or ownerConnectAccountId is falsy. An amount of 0 is
    answered with status 400; a negative amount, with the two references
    present, passes the check and is sent upstream as it is. *)
Theorem create_payment_intent_validation req_body w :
  (status (create_payment_intent stripe Date_now req_body w).1.1 = 400
   <-> truthy (get req_body "amount") = false
       \/ truthy (get req_body "customerId") = false
       \/ truthy (get req_body "ownerConnectAccountId") = false)
  /\ (get req_body "amount" = JNum 0 ->
      create_payment_intent stripe Date_now req_body w
      = (status_json 400 (ErrorBody "Missing fields"), w, []))
  /\ (forall n, n < 0 ->
      get req_body "amount" = JNum n ->
      truthy (get req_body "customerId") = true ->
      truthy (get req_body "ownerConnectAccountId") = true ->
      let params := create_params req_body (Date_now w) in
      pp_amount params = JNum n
      /\ (create_payment_intent stripe Date_now req_body w).2
         = [PaymentIntentsCreate params]).
Proof.
  split; [| split].
  - split; [apply create_payment_intent_400 |].
    intros H. rewrite (create_payment_intent_rejected req_body w H). reflexivity.
  - intros H. apply create_payment_intent_rejected. left. rewrite H. reflexivity.
  - intros n Hn Ha Hc Ho params.
    assert (Ht : truthy (get req_body "amount") = true).
    { rewrite Ha. simpl. destruct (Z.eqb_spec n 0); [lia | reflexivity]. }
    rewrite (create_payment_intent_accepted req_body w Ht Hc Ho). fold params.
    split; [exact Ha |].
    destruct (paymentIntents_create stripe params w) as [[err | p] w1]; reflexivity.
Qed.

(** The token of a successful initiation is the clock reading taken at
    its start. *)
Lemma create_payment_intent_token req_body w :
  status (create_payment_intent stripe Date_now req_body w).1.1 = 200 ->
  transferGroup_of (create_payment_intent stripe Date_now req_body w).1.1
  = Some ("booking_" +:+ template_of_Z (Date_now w)).
Proof.
  intros H.
  destruct (truthy (get req_body "amount")) eqn:Ha;
    [| rewrite create_payment_intent_rejected in H by auto; discriminate].
  destruct (truthy (get req_body "customerId")) eqn:Hc;
    [| rewrite create_payment_intent_rejected in H by auto; discriminate].
  destruct (truthy (get req_body "ownerConnectAccountId")) eqn:Ho;
    [| rewrite create_payment_intent_rejected in H by auto; discriminate].
  rewrite (create_payment_intent_accepted req_body w Ha Hc Ho) in *.
  destruct (paymentIntents_create stripe (create_params req_body (Date_now w)) w)
    as [[err | paymentIntent] w1]; [discriminate | reflexivity].
Qed.

(** Two initiations mint the same token exactly when the clock read the
    same millisecond. *)
Lemma transfer_group_eq_iff (t1 t2 : Z) :
  "booking_" +:+ template_of_Z t1 = "booking_" +:+ template_of_Z t2 <-> t1 = t2.
Proof.
  split; [| congruence]. intros H.
  apply (inj (String.append "booking_")) in H. apply (inj pretty) in H. exact H.
Qed.

End CreatePaymentIntent.

Lemma create_payment_intent_missing_fields_witness :
  create_payment_intent mock_stripe mk_clock {[ "amount" := JNum 0; "customerId" := JStr "cus_1" ]}
    (mock [] JNull [] [] [] [])
  = (status_json 400 (ErrorBody "Missing fields"), mock [] JNull [] [] [] [], []).
Proof.
  apply create_payment_intent_missing_fields. left. right.
  exists (JNum 0). split; reflexivity.
Defined.

Lemma create_payment_intent_fee_not_checked_witness :
  (create_payment_intent mock_stripe mk_clock (booking_request 100 500)
     (mock ["paymentIntents.create"] JNull [] [] [] [])).1.1
  = status_json 500 (ErrorBody "paymentIntents.create rejected").
Proof.
  pose proof (create_payment_intent_fee_not_checked mock_stripe mk_clock
                (booking_request 100 500) (mock ["paymentIntents.create"] JNull [] [] [] [])
                eq_refl eq_refl eq_refl) as (_ & _ & H).
  rewrite (H {| message := "paymentIntents.create rejected" |}
             (mock ["paymentIntents.create"] JNull [] [] [] []) eq_refl).
  reflexivity.
Defined.

Lemma create_payment_intent_validation_witness :
  pp_amount (create_params (booking_request (-5) 0) 1700000000000) = JNum (-5)
  /\ (create_payment_intent mock_stripe mk_clock (booking_request (-5) 0)
        (mock [] JNull [] [] [] [])).2
     = [PaymentIntentsCreate (create_params (booking_request (-5) 0) 1700000000000)].
Proof.
  pose proof (create_payment_intent_validation mock_stripe mk_clock
                (booking_request (-5) 0) (mock [] JNull [] [] [] [])) as (_ & _ & H).
  apply (H (-5)); [lia | reflexivity | reflexivity | reflexivity].
Defined.

(** C1: the token is [booking_] followed by the millisecond clock reading
    and nothing else. Two initiations handled back-to-back within one
    millisecond both succeed and return the same transferGroup. *)
Theorem create_payment_intent_token_collision :
  let w := mock [] JNull [] [] [] [] in
  let r := back_to_back
             (create_payment_intent mock_stripe mk_clock (booking_request 10000 500))
             (create_payment_intent mock_stripe mk_clock (booking_request 20000 0)) w in
  status r.1 = 200 /\ status r.2 = 200
  /\ transferGroup_of r.1 = Some "booking_1700000000000"
  /\ transferGroup_of r.2 = Some "booking_1700000000000".
Proof. vm_compute. repeat split; reflexivity. Qed.

(** ** Properties of POST /refund *)

Section Refund.

Context {World : Type}.
Variable stripe : @Stripe World.

(** The loop on a platform that accepts every reversal: all of them are
    issued, in order, and the variable ends on the last record. *)
Lemma reverse_each_succeeds w ts rs w1 :
  reversals_succeed stripe w ts rs w1 ->
  forall reversal,
    reverse_each stripe ts reversal w
    = (inr (match last rs with Some r => Some r | None => reversal end), w1,
       map reversal_call ts).
Proof.
  induction 1 as [w | w t r w1 ts rs w2 Hcall _ IH]; intros reversal.
  - reflexivity.
  - simpl. unfold bind, await. rewrite Hcall. rewrite IH.
    destruct rs as [| r' rs']; [reflexivity |].
    change (last (r :: r' :: rs')) with (last (r' :: rs')).
    destruct (last (r' :: rs')) eqn:Hlast; [reflexivity |].
    apply last_None in Hlast. discriminate.
Qed.

(** The loop on a platform that rejects the reversal of [t] after
    accepting those before it: the exception leaves the loop at [t]. *)
Lemma reverse_each_fails w ts rs w1 t err w2 rest :
  reversals_succeed stripe w ts rs w1 ->
  transfers_createReversal stripe (tr_id t) (tr_amount t) w1 = (inl err, w2) ->
  forall reversal,
    reverse_each stripe (ts ++ t :: rest) reversal w
    = (inl err, w2, map reversal_call ts ++ [reversal_call t]).
Proof.
  intros Hok Hfail. induction Hok as [w | w t' r w1 ts rs w3 Hcall _ IH]; intros reversal.
  - simpl. unfold bind, await. rewrite Hfail. reflexivity.
  - simpl. unfold bind, await. rewrite Hcall. rewrite (IH Hfail). reflexivity.
Qed.

Lemma reversals_succeed_length w ts rs w1 :
  reversals_succeed stripe w ts rs w1 -> length rs = length ts.
Proof. induction 1; simpl; congruence. Qed.

Lemma refund_unfold req_body w :
  truthy (get req_body "paymentIntentId") = true ->
  refund stripe req_body w
  = route
      (bind (await (RefundsCreate (get req_body "paymentIntentId"))
               (refunds_create stripe (get req_body "paymentIntentId")))
         (fun refund =>
            bind (await (PaymentIntentsRetrieve (get req_body "paymentIntentId"))
                    (paymentIntents_retrieve stripe (get req_body "paymentIntentId")))
              (fun pi =>
                 if negb (truthy (pi_transfer_group pi))
                 then ret (json (RefundBody true (re_id refund) (re_status refund) false None))
                 else
                   bind (await (TransfersListGroup (pi_transfer_group pi))
                           (transfers_list_group stripe (pi_transfer_group pi)))
                     (fun transfers =>
                        bind (reverse_each stripe transfers None)
                          (fun reversal =>
                             ret (json (RefundBody true (re_id refund) (re_status refund)
                                          (bool_decide (is_Some reversal))
                                          (Some reversal))))))))
      (fun err => status_json 500 (ErrorBody (message err))) w.
Proof. intros H. unfold refund, route. rewrite H. reflexivity. Qed.

(** C2: when the group of the refunded payment lists N >= 1 transfers
    and the platform accepts each step, the route issues, after the
    refund, the retrieval and the listing, exactly N reversal calls, one
    per listed transfer in list order, each for that transfer's own
    amount; it answers 200 with transferReversed = true and the record
    of the last reversal only. *)
Theorem refund_reverses_every_transfer req_body w0 refund_ w1 pi w2 ts w3 rs w4 :
  let pid := get req_body "paymentIntentId" in
  truthy pid = true ->
  refunds_create stripe pid w0 = (inr refund_, w1) ->
  paymentIntents_retrieve stripe pid w1 = (inr pi, w2) ->
  truthy (pi_transfer_group pi) = true ->
  transfers_list_group stripe (pi_transfer_group pi) w2 = (inr ts, w3) ->
  (1 <= length ts)%nat ->
  reversals_succeed stripe w3 ts rs w4 ->
  exists last_reversal calls,
    last rs = Some last_reversal
    /\ refund stripe req_body w0
       = (json (RefundBody true (re_id refund_) (re_status refund_) true
                  (Some (Some last_reversal))), w4, calls)
    /\ calls = [RefundsCreate pid; PaymentIntentsRetrieve pid;
                TransfersListGroup (pi_transfer_group pi)]
               ++ map reversal_call ts
    /\ length (List.filter is_reversal_call calls) = length ts.
Proof.
  intros pid Hpid Hrefund Hpi Hgroup Hlist Hn Hrev.
  pose proof (reversals_succeed_length _ _ _ _ Hrev) as Hlen.
  destruct (last rs) as [last_reversal |] eqn:Hlast.
  2:{ apply last_None in Hlast. subst rs. simpl in Hlen. lia. }
  exists last_reversal, ([RefundsCreate pid; PaymentIntentsRetrieve pid;
                          TransfersListGroup (pi_transfer_group pi)]
                         ++ map reversal_call ts).
  split; [reflexivity |]. split; [| split; [reflexivity |]].
  - rewrite (refund_unfold req_body w0 Hpid). fold pid.
    unfold route, bind, await. rewrite Hrefund, Hpi, Hgroup. simpl.
    rewrite Hlist. rewrite (reverse_each_succeeds _ _ _ _ Hrev None), Hlast.
    simpl. rewrite app_nil_r. reflexivity.
  - simpl. clear. induction ts as [| t ts IH]; simpl; [reflexivity | now rewrite IH].
Qed.

(** C3: a rejected refund call is answered with status 500 and the
    platform's message, and no other call is issued. When the refund
    went through and the retrieval, the listing or one of the reversals
    is rejected, the answer is again 500 with that message; the calls
    issued are the refund, then the steps up to the rejected one, and
    nothing after it, so nothing undoes the refund. *)
Theorem refund_failure_semantics req_body w0 :
  let pid := get req_body "paymentIntentId" in
  truthy pid = true ->
  (forall err w1,
      refunds_create stripe pid w0 = (inl err, w1) ->
      refund stripe req_body w0
      = (status_json 500 (ErrorBody (message err)), w1, [RefundsCreate pid]))
  /\ (forall refund_ w1,
      refunds_create stripe pid w0 = (inr refund_, w1) ->
      (forall err w2,
          paymentIntents_retrieve stripe pid w1 = (inl err, w2) ->
          refund stripe req_body w0
          = (status_json 500 (ErrorBody (message err)), w2,
             [RefundsCreate pid; PaymentIntentsRetrieve pid]))
      /\ (forall pi w2,
          paymentIntents_retrieve stripe pid w1 = (inr pi, w2) ->
          truthy (pi_transfer_group pi) = true ->
          (forall err w3,
              transfers_list_group stripe (pi_transfer_group pi) w2 = (inl err, w3) ->
              refund stripe req_body w0
              = (status_json 500 (ErrorBody (message err)), w3,
                 [RefundsCreate pid; PaymentIntentsRetrieve pid;
                  TransfersListGroup (pi_transfer_group pi)]))
          /\ (forall done t rest w3 rs w4 err w5,
              transfers_list_group stripe (pi_transfer_group pi) w2
              = (inr (done ++ t :: rest), w3) ->
              reversals_succeed stripe w3 done rs w4 ->
              transfers_createReversal stripe (tr_id t) (tr_amount t) w4 = (inl err, w5) ->
              refund stripe req_body w0
              = (status_json 500 (ErrorBody (message err)), w5,
                 [RefundsCreate pid; PaymentIntentsRetrieve pid;
                  TransfersListGroup (pi_transfer_group pi)]
                 ++ map reversal_call done ++ [reversal_call t])))).
Proof.
  intros pid Hpid. split.
  - intros err w1 H. rewrite (refund_unfold req_body w0 Hpid). fold pid.
    unfold route, bind, await. rewrite H. reflexivity.
  - intros refund_ w1 Hrefund. split.
    + intros err w2 H. rewrite (refund_unfold req_body w0 Hpid). fold pid.
      unfold route, bind, await. rewrite Hrefund, H. reflexivity.
    + intros pi w2 Hpi Hgroup. split.
      * intros err w3 H. rewrite (refund_unfold req_body w0 Hpid). fold pid.
        unfold route, bind, await. rewrite Hrefund, Hpi, Hgroup. simpl.
        rewrite H. reflexivity.
      * intros done t rest w3 rs w4 err w5 Hlist Hdone Hfail.
        rewrite (refund_unfold req_body w0 Hpid). fold pid.
        unfold route, bind, await. rewrite Hrefund, Hpi, Hgroup. simpl.
        rewrite Hlist. rewrite (reverse_each_fails _ _ _ _ _ _ _ rest Hdone Hfail None).
        reflexivity.
Qed.

(** C4: when the retrieved payment intent carries no transfer_group
    (the value is falsy), the route answers 200 with success, the
    refund's id and status and transferReversed = false, without a
    reversal record; the only calls issued are the refund and the
    retrieval. *)
Theorem refund_without_group req_body w0 refund_ w1 pi w2 :
  let pid := get req_body "paymentIntentId" in
  truthy pid = true ->
  refunds_create stripe pid w0 = (inr refund_, w1) ->
  paymentIntents_retrieve stripe pid w1 = (inr pi, w2) ->
  truthy (pi_transfer_group pi) = false ->
  refund stripe req_body w0
  = (json (RefundBody true (re_id refund_) (re_status refund_) false None), w2,
     [RefundsCreate pid; PaymentIntentsRetrieve pid]).
Proof.
  intros pid Hpid Hrefund Hpi Hgroup.
  rewrite (refund_unfold req_body w0 Hpid). fold pid.
  unfold route, bind, await, ret. rewrite Hrefund, Hpi, Hgroup. reflexivity.
Qed.

End Refund.

(** ** The built-in sort under a descending key *)

Section Sorting.

Context {A : Type}.
Variable key : A -> Z.

Lemma js_sort_insert_perm x l : Permutation (js_sort_insert (desc_by key) x l) (x :: l).
Proof.
  induction l as [| y l IH]; simpl; [reflexivity |].
  destruct (0 <? desc_by key x y); [| reflexivity].
  rewrite IH. apply perm_swap.
Qed.

Lemma js_sort_perm l : Permutation (js_sort (desc_by key) l) l.
Proof.
  induction l as [| x l IH]; simpl; [reflexivity |].
  rewrite js_sort_insert_perm. now apply perm_skip.
Qed.

Lemma js_sort_insert_sorted x l :
  StronglySorted (later_first key) l ->
  StronglySorted (later_first key) (js_sort_insert (desc_by key) x l).
Proof.
  induction 1 as [| y l Hl IH Hy]; simpl.
  - repeat constructor.
  - unfold desc_by at 1. destruct (Z.ltb_spec 0 (key y - key x)) as [Hlt | Hge].
    + constructor; [exact IH |].
      rewrite js_sort_insert_perm. constructor; [unfold later_first in *; lia | exact Hy].
    + constructor; [now constructor |].
      constructor; [unfold later_first in *; lia |].
      eapply Forall_impl; [exact Hy |]. unfold later_first in *. intros z Hz. lia.
Qed.

Lemma js_sort_sorted l : StronglySorted (later_first key) (js_sort (desc_by key) l).
Proof.
  induction l as [| x l IH]; simpl; [constructor |].
  now apply js_sort_insert_sorted.
Qed.

(** Entries with the same key keep the order they had. *)
Lemma js_sort_insert_stable k x l :
  List.filter (fun a => key a =? k) (js_sort_insert (desc_by key) x l)
  = List.filter (fun a => key a =? k) (x :: l).
Proof.
  induction l as [| y l IH]; [reflexivity |].
  cbn [js_sort_insert]. unfold desc_by at 1.
  destruct (Z.ltb_spec 0 (key y - key x)) as [Hlt | Hge]; [| reflexivity].
  cbn [List.filter] in *. rewrite IH.
  destruct (Z.eqb_spec (key x) k), (Z.eqb_spec (key y) k); try reflexivity. lia.
Qed.

Lemma js_sort_stable k l :
  List.filter (fun a => key a =? k) (js_sort (desc_by key) l)
  = List.filter (fun a => key a =? k) l.
Proof.
  induction l as [| x l IH]; [reflexivity |].
  cbn [js_sort foldr]. rewrite js_sort_insert_stable.
  cbn [List.filter]. fold (js_sort (desc_by key) l). now rewrite IH.
Qed.

End Sorting.

(** ** Properties of the transaction histories *)

Lemma strict_eq_true a b : strict_eq a b = true -> a = b.
Proof.
  destruct a, b; simpl; try discriminate; try reflexivity.
  - intros H. apply Bool.eqb_prop in H. congruence.
  - intros H. apply Z.eqb_eq in H. congruence.
  - intros H. apply String.eqb_eq in H. congruence.
Qed.

Lemma by_created_desc_sorted l : created_desc (js_sort by_created_desc l).
Proof. apply (js_sort_sorted tx_created). Qed.

Section Transactions.

Context {World : Type}.
Variable stripe : @Stripe World.

Lemma refund_of_customer_true customerId r :
  truthy customerId = true ->
  refund_of_customer customerId r = true ->
  exists c, re_charge r = ExObj c /\ ch_customer c = customerId.
Proof.
  unfold refund_of_customer. intros Hc H.
  destruct (re_charge r) as [| s | c]; [discriminate | |].
  - apply andb_true_iff in H as [_ H]. apply strict_eq_true in H.
    subst customerId. discriminate.
  - exists c. split; [reflexivity |]. now apply strict_eq_true.
Qed.

(** C6: when the listings succeed, both history routes answer 200 with
    the combined list ordered by creation time alone, later entries
    first (entries created at the same time keep their relative order);
    in the renter's list every entry of type refund comes from a listed
    refund whose expanded charge has [customer] equal to the requested
    customerId. *)
Theorem transactions_sorted_and_filtered :
  (forall req_body w charges w1 refundsList w2,
      let customerId := get req_body "customerId" in
      truthy customerId = true ->
      charges_list stripe customerId 50 w = (inr charges, w1) ->
      refunds_list stripe 50 ["data.charge"] w1 = (inr refundsList, w2) ->
      exists txs combined,
        transactions_renter stripe req_body w
        = (json (TransactionsBody txs), w2,
           [ChargesList customerId 50; RefundsList 50 ["data.charge"]])
        /\ combined
           = map payment_of_charge charges
             ++ map transaction_of_refund
                  (List.filter (refund_of_customer customerId) refundsList)
        /\ Permutation txs combined
        /\ created_desc txs
        /\ (forall k, List.filter (fun x => tx_created x =? k) txs
                      = List.filter (fun x => tx_created x =? k) combined)
        /\ (forall x, In x txs -> tx_type x = "refund" ->
              exists r c, In r refundsList /\ x = transaction_of_refund r
                          /\ re_charge r = ExObj c /\ ch_customer c = customerId))
  /\ (forall req_body w transfers w1,
      let connectAccountId := get req_body "connectAccountId" in
      truthy connectAccountId = true ->
      transfers_list_destination stripe connectAccountId 50 owner_expand w
      = (inr transfers, w1) ->
      exists txs combined,
        transactions_owner stripe req_body w
        = (json (TransactionsBody txs), w1,
           [TransfersListDestination connectAccountId 50 owner_expand])
        /\ combined = (owner_loop transfers [] []).1 ++ (owner_loop transfers [] []).2
        /\ Permutation txs combined
        /\ created_desc txs
        /\ (forall k, List.filter (fun x => tx_created x =? k) txs
                      = List.filter (fun x => tx_created x =? k) combined)).
Proof.
  split.
  - intros req_body w charges w1 refundsList w2 customerId Hc Hcharges Hrefunds.
    eexists _, _. split; [| split; [reflexivity |]].
    + unfold transactions_renter, route, bind, await, ret. fold customerId.
      rewrite Hc. simpl. rewrite Hcharges, Hrefunds. reflexivity.
    + split; [apply (js_sort_perm tx_created) |].
      split; [apply by_created_desc_sorted |].
      split; [intros k; apply (js_sort_stable tx_created) |].
      intros x Hx Htype.
      apply (Permutation_in _ (js_sort_perm tx_created _)) in Hx.
      apply in_app_or in Hx as [Hx | Hx].
      * apply in_map_iff in Hx as (c & <- & _). discriminate.
      * apply in_map_iff in Hx as (r & <- & Hr).
        apply filter_In in Hr as [Hr Hkeep].
        destruct (refund_of_customer_true customerId r Hc Hkeep) as (c & Hch & Hcu).
        exists r, c. auto.
  - intros req_body w transfers w1 connectAccountId Hc Htransfers.
    exists (js_sort by_created_desc
              ((owner_loop transfers [] []).1 ++ (owner_loop transfers [] []).2)).
    eexists. split; [| split; [reflexivity |]].
    + unfold transactions_owner, route, bind, await, ret. fold connectAccountId.
      rewrite Hc. simpl. rewrite Htransfers.
      destruct (owner_loop transfers [] []) as [payouts reversals]. reflexivity.
    + split; [apply (js_sort_perm tx_created) |].
      split; [apply by_created_desc_sorted |].
      intros k; apply (js_sort_stable tx_created).
Qed.

End Transactions.

(** ** Properties of DELETE /stripe/delete-accounts *)

Section DeleteAccounts.

Context {World : Type}.
Variable stripe : @Stripe World.

(** C9: with customerId or connectAccountId supplied, the route answers
    200 with success = true whatever the deletions did; a rejected
    deletion shows only as [false] in the details. Without a
    connectAccountId, connectAccountDeleted is [true] although the only
    call issued is the customer's deletion. *)
Theorem delete_accounts_best_effort req_body w :
  let customerId := get req_body "customerId" in
  let connectAccountId := get req_body "connectAccountId" in
  truthy customerId = true \/ truthy connectAccountId = true ->
  exists details w1 calls,
    delete_accounts stripe req_body w
    = (json (DeleteBody true "Deletion attempted." (Some details)), w1, calls)
    /\ (truthy customerId = true ->
        forall err w',
          customers_del stripe customerId w = (inl err, w') ->
          customerDeleted details = Some false)
    /\ (truthy connectAccountId = true ->
        forall err w',
          accounts_del stripe connectAccountId
            (if truthy customerId then (customers_del stripe customerId w).2 else w)
          = (inl err, w') ->
          connectAccountDeleted details = Some false)
    /\ (truthy connectAccountId = false ->
        connectAccountDeleted details = Some true
        /\ calls = [CustomersDel customerId]).
Proof.
  intros customerId connectAccountId H.
  unfold delete_accounts, route, bind, try_catch, await, ret.
  fold customerId. fold connectAccountId.
  destruct (truthy customerId) eqn:Hc; destruct (truthy connectAccountId) eqn:Ha;
    simpl; try (destruct H; discriminate).
  - destruct (customers_del stripe customerId w) as [[e1 | []] w1] eqn:H1; simpl;
      destruct (accounts_del stripe connectAccountId w1) as [[e2 | []] w2] eqn:H2; simpl;
      eexists _, _, _; (split; [reflexivity |]);
      repeat split; try discriminate; try reflexivity; intros; congruence.
  - destruct (customers_del stripe customerId w) as [[e1 | []] w1] eqn:H1; simpl;
      eexists _, _, _; (split; [reflexivity |]);
      repeat split; try discriminate; try reflexivity; intros; congruence.
  - destruct (accounts_del stripe connectAccountId w) as [[e2 | []] w2] eqn:H2; simpl;
      eexists _, _, _; (split; [reflexivity |]);
      repeat split; try discriminate; try reflexivity; intros; congruence.
Qed.

End DeleteAccounts.

(** ** Properties of GET /config and of start-up *)

(** C10: GET /config answers 200 with publishableKey read from
    STRIPE_PUBLISHABLE_KEY, whatever the environment holds, and issues no
    call. Start-up stops only on a missing (or empty) STRIPE_SECRET_KEY,
    so there is an environment with which the server starts and the route
    answers 200 with an undefined key. *)
Theorem config_publishable_key_not_checked :
  (forall (World : Type) env (w : World),
      config env w = (json (ConfigBody (process_env env "STRIPE_PUBLISHABLE_KEY")), w, [])
      /\ status (config env w).1.1 = 200)
  /\ (forall env,
        startup env = Exited 1 <-> truthy (process_env env "STRIPE_SECRET_KEY") = false)
  /\ (forall env,
        startup env = Listening port <-> truthy (process_env env "STRIPE_SECRET_KEY") = true)
  /\ (exists env,
        startup env = Listening port
        /\ env !! "STRIPE_PUBLISHABLE_KEY" = None
        /\ forall (World : Type) (w : World),
             config env w = (json (ConfigBody JUndefined), w, [])).
Proof.
  split; [| split; [| split]].
  - intros World env w. split; reflexivity.
  - intros env. unfold startup.
    destruct (truthy (process_env env "STRIPE_SECRET_KEY")); simpl;
      split; intros H; try reflexivity; discriminate.
  - intros env. unfold startup.
    destruct (truthy (process_env env "STRIPE_SECRET_KEY")); simpl;
      split; intros H; try reflexivity; discriminate.
  - exists {[ "STRIPE_SECRET_KEY" := "sk_test_1" ]}.
    split; [reflexivity |]. split; [reflexivity |]. intros World w. reflexivity.
Qed.

(** ** The routes on the scripted platform *)

Lemma refund_reverses_every_transfer_witness :
  refund mock_stripe refund_request
    (mock [] (JStr "booking_1") [transfer_1; transfer_2] [] [] [])
  = (json (RefundBody true "re_1" (JStr "succeeded") true
             (Some (Some {| rv_id := "trr_tr_2"; rv_amount := 4000;
                            rv_created := 1700000000000 |}))),
     {| mk_clock := 1700000000000; mk_failing := []; mk_group := JStr "booking_1";
        mk_transfers := [transfer_1; transfer_2]; mk_irreversible := [];
        mk_charges := []; mk_refunds := []; mk_reversed := ["tr_2"; "tr_1"] |},
     [RefundsCreate (JStr "pi_1"); PaymentIntentsRetrieve (JStr "pi_1");
      TransfersListGroup (JStr "booking_1");
      TransfersCreateReversal "tr_1" 9500; TransfersCreateReversal "tr_2" 4000]).
Proof.
  edestruct (refund_reverses_every_transfer mock_stripe refund_request
               (mock [] (JStr "booking_1") [transfer_1; transfer_2] [] [] []))
    as (last_reversal & calls & Hlast & Hrun & Hcalls & _).
  - reflexivity.
  - reflexivity.
  - reflexivity.
  - reflexivity.
  - reflexivity.
  - simpl. lia.
  - eapply reversals_cons; [reflexivity |].
    eapply reversals_cons; [reflexivity |]. apply reversals_nil.
  - rewrite Hrun, Hcalls. injection Hlast as <-. reflexivity.
Defined.

Lemma refund_failure_semantics_witness :
  refund mock_stripe refund_request
    (mock ["refunds.create"] (JStr "booking_1") [transfer_1; transfer_2] [] [] [])
  = (status_json 500 (ErrorBody "refunds.create rejected"),
     mock ["refunds.create"] (JStr "booking_1") [transfer_1; transfer_2] [] [] [],
     [RefundsCreate (JStr "pi_1")])
  /\ (refund mock_stripe refund_request
        (mock [] (JStr "booking_1") [transfer_1; transfer_2] ["tr_2"] [] [])).1
     = (status_json 500 (ErrorBody "cannot reverse tr_2"),
        {| mk_clock := 1700000000000; mk_failing := []; mk_group := JStr "booking_1";
           mk_transfers := [transfer_1; transfer_2]; mk_irreversible := ["tr_2"];
           mk_charges := []; mk_refunds := []; mk_reversed := ["tr_1"] |}).
Proof.
  split.
  - apply (proj1 (refund_failure_semantics mock_stripe refund_request
                    (mock ["refunds.create"] (JStr "booking_1")
                       [transfer_1; transfer_2] [] [] []) eq_refl)
             {| message := "refunds.create rejected" |}).
    reflexivity.
  - destruct (proj2 (refund_failure_semantics mock_stripe refund_request
                       (mock [] (JStr "booking_1") [transfer_1; transfer_2] ["tr_2"] [] [])
                       eq_refl) _ _ eq_refl) as [_ H].
    destruct (H _ _ eq_refl eq_refl) as [_ Hrev].
    erewrite (Hrev [transfer_1] transfer_2 []); cycle 1.
    + reflexivity.
    + eapply reversals_cons; [reflexivity |]. apply reversals_nil.
    + reflexivity.
    + reflexivity.
Defined.

Lemma refund_without_group_witness :
  refund mock_stripe refund_request (mock [] JNull [transfer_1] [] [] [])
  = (json (RefundBody true "re_1" (JStr "succeeded") false None),
     mock [] JNull [transfer_1] [] [] [],
     [RefundsCreate (JStr "pi_1"); PaymentIntentsRetrieve (JStr "pi_1")]).
Proof.
  erewrite (refund_without_group mock_stripe refund_request
              (mock [] JNull [transfer_1] [] [] [])); cycle 1.
  - reflexivity.
  - reflexivity.
  - reflexivity.
  - reflexivity.
  - reflexivity.
Defined.

Lemma transactions_sorted_and_filtered_witness :
  exists txs,
    (transactions_renter mock_stripe {[ "customerId" := JStr "cus_1" ]}
       (mock [] JNull [] []
          [charge_of "ch_1" "cus_1" 1700000000; charge_of "ch_3" "cus_1" 1700000500]
          [refund_of "re_1" 1700000200 (charge_of "ch_1" "cus_1" 1700000000);
           refund_of "re_2" 1700000400 (charge_of "ch_2" "cus_2" 1700000050)])).1.1
    = json (TransactionsBody txs)
    /\ map tx_id txs = ["ch_3"; "re_1"; "ch_1"]
    /\ created_desc txs.
Proof.
  edestruct (proj1 (transactions_sorted_and_filtered mock_stripe)
               {[ "customerId" := JStr "cus_1" ]}
               (mock [] JNull [] []
                  [charge_of "ch_1" "cus_1" 1700000000; charge_of "ch_3" "cus_1" 1700000500]
                  [refund_of "re_1" 1700000200 (charge_of "ch_1" "cus_1" 1700000000);
                   refund_of "re_2" 1700000400 (charge_of "ch_2" "cus_2" 1700000050)]))
    as (txs & combined & Hrun & _ & _ & Hsorted & _).
  - reflexivity.
  - reflexivity.
  - reflexivity.
  - exists txs. rewrite Hrun. split; [reflexivity |]. split; [| exact Hsorted].
    injection Hrun as <-. reflexivity.
Defined.

Lemma delete_accounts_best_effort_witness :
  delete_accounts mock_stripe {[ "customerId" := JStr "cus_1" ]}
    (mock ["customers.del"] JNull [] [] [] [])
  = (json (DeleteBody true "Deletion attempted."
             (Some {| customerDeleted := Some false; connectAccountDeleted := Some true |})),
     mock ["customers.del"] JNull [] [] [] [],
     [CustomersDel (JStr "cus_1")]).
Proof.
  edestruct (delete_accounts_best_effort mock_stripe {[ "customerId" := JStr "cus_1" ]}
               (mock ["customers.del"] JNull [] [] [] []))
    as (details & w1 & calls & Hrun & _).
  - left. reflexivity.
  - rewrite Hrun. injection Hrun as <- <- <-. reflexivity.
Defined.

(** ** Further properties of POST /refund *)

Section RefundRuns.

Context {World : Type}.
Variable stripe : @Stripe World.

(** The loop issues reversal calls and nothing else. *)
Lemma reverse_each_calls ts :
  forall reversal w,
    Forall (fun c => is_reversal_call c = true) (reverse_each stripe ts reversal w).2.
Proof.
  induction ts as [| t ts IH]; intros reversal w; simpl; [constructor |].
  unfold bind, await.
  destruct (transfers_createReversal stripe (tr_id t) (tr_amount t) w) as [[err | r] w1].
  - simpl. repeat constructor.
  - specialize (IH (Some r) w1).
    destruct (reverse_each stripe ts (Some r) w1) as [[out w2] calls].
    simpl in *. constructor; [reflexivity | exact IH].
Qed.

(** A loop that ends without an exception had every reversal accepted. *)
Lemma reverse_each_completed ts :
  forall reversal w out w1 calls,
    reverse_each stripe ts reversal w = (inr out, w1, calls) ->
    exists rs,
      reversals_succeed stripe w ts rs w1
      /\ calls = map reversal_call ts
      /\ out = match last rs with Some r => Some r | None => reversal end.
Proof.
  induction ts as [| t ts IH]; intros reversal w out w1 calls H; simpl in H.
  - injection H as <- <- <-. exists []. repeat split. constructor.
  - unfold bind, await in H.
    destruct (transfers_createReversal stripe (tr_id t) (tr_amount t) w)
      as [[err | r] w2] eqn:Hcall; [discriminate |].
    destruct (reverse_each stripe ts (Some r) w2) as [[out2 w3] calls2] eqn:Hrest.
    injection H as -> <- <-.
    destruct (IH _ _ _ _ _ Hrest) as (rs & Hok & -> & ->).
    exists (r :: rs). split; [econstructor; eassumption |]. split; [reflexivity |].
    destruct rs as [| r' rs']; [reflexivity |].
    change (last (r :: r' :: rs')) with (last (r' :: rs')).
    destruct (last (r' :: rs')) eqn:Hlast; [reflexivity |].
    apply last_None in Hlast. discriminate.
Qed.

(** X1: POST /refund answers 400 exactly when paymentIntentId is missing
    or falsy, and then says "Missing paymentIntentId" without issuing any
    call. *)
Theorem refund_missing_payment_intent req_body w :
  (truthy (get req_body "paymentIntentId") = false ->
   refund stripe req_body w
   = (status_json 400 (ErrorBody "Missing paymentIntentId"), w, []))
  /\ (status (refund stripe req_body w).1.1 = 400 ->
      truthy (get req_body "paymentIntentId") = false).
Proof.
  split.
  - intros H. unfold refund, route. rewrite H. reflexivity.
  - destruct (truthy (get req_body "paymentIntentId")) eqn:Hpid; [| reflexivity].
    rewrite (refund_unfold stripe req_body w Hpid).
    unfold route, bind, await, ret.
    destruct (refunds_create stripe _ w) as [[e | refund_] w1]; [discriminate |].
    destruct (paymentIntents_retrieve stripe _ w1) as [[e | pi] w2]; [discriminate |].
    destruct (truthy (pi_transfer_group pi)); simpl; [| discriminate].
    destruct (transfers_list_group stripe _ w2) as [[e | ts] w3]; [discriminate |].
    destruct (reverse_each stripe ts None w3) as [[[e | out] w4] calls]; discriminate.
Qed.

(** X2: when the payment has a transfer group but the listing returns no
    transfer, the route answers 200 with transferReversed = false and
    [reversal: null], after the refund, the retrieval and the listing. *)
Theorem refund_no_transfers_found req_body w0 refund_ w1 pi w2 w3 :
  let pid := get req_body "paymentIntentId" in
  truthy pid = true ->
  refunds_create stripe pid w0 = (inr refund_, w1) ->
  paymentIntents_retrieve stripe pid w1 = (inr pi, w2) ->
  truthy (pi_transfer_group pi) = true ->
  transfers_list_group stripe (pi_transfer_group pi) w2 = (inr [], w3) ->
  refund stripe req_body w0
  = (json (RefundBody true (re_id refund_) (re_status refund_) false (Some None)), w3,
     [RefundsCreate pid; PaymentIntentsRetrieve pid;
      TransfersListGroup (pi_transfer_group pi)]).
Proof.
  intros pid Hpid Hrefund Hpi Hgroup Hlist.
  rewrite (refund_unfold stripe req_body w0 Hpid). fold pid.
  unfold route, bind, await. rewrite Hrefund, Hpi, Hgroup. simpl.
  rewrite Hlist. reflexivity.
Qed.

(** X3: whatever the platform does, a request with a paymentIntentId
    issues the refund first and only once: every later call is a
    retrieval, a listing or a reversal. *)
Theorem refund_issued_first_and_once req_body w :
  let pid := get req_body "paymentIntentId" in
  truthy pid = true ->
  exists rest,
    (refund stripe req_body w).2 = RefundsCreate pid :: rest
    /\ Forall (fun c => follows_refund c = true) rest.
Proof.
  intros pid Hpid. rewrite (refund_unfold stripe req_body w Hpid). fold pid.
  unfold route, bind, await, ret.
  destruct (refunds_create stripe pid w) as [[e | refund_] w1];
    [eexists; split; [reflexivity | constructor] |].
  destruct (paymentIntents_retrieve stripe pid w1) as [[e | pi] w2];
    [eexists; split; [reflexivity | repeat constructor] |].
  destruct (truthy (pi_transfer_group pi)); simpl;
    [| eexists; split; [reflexivity | repeat constructor]].
  destruct (transfers_list_group stripe _ w2) as [[e | ts] w3];
    [eexists; split; [reflexivity | repeat constructor] |].
  pose proof (reverse_each_calls ts None w3) as Hcalls.
  destruct (reverse_each stripe ts None w3) as [[[e | out] w4] calls]; simpl in *.
  - eexists. split; [reflexivity |]. repeat (constructor; [reflexivity |]).
    eapply Forall_impl; [exact Hcalls |]. intros [] Hc; try discriminate. reflexivity.
  - eexists. split; [reflexivity |]. repeat (constructor; [reflexivity |]).
    rewrite app_nil_r.
    eapply Forall_impl; [exact Hcalls |]. intros [] Hc; try discriminate. reflexivity.
Qed.

(** X4: a 200 answer hides no rejected step. If the route answers 200,
    the refund and the retrieval were accepted; and if the payment has a
    transfer group, the listing was accepted and so was the reversal of
    every listed transfer, all of which were issued in list order. *)
Theorem refund_ok_means_all_reversed req_body w0 resp w calls :
  let pid := get req_body "paymentIntentId" in
  truthy pid = true ->
  refund stripe req_body w0 = (resp, w, calls) ->
  status resp = 200 ->
  exists refund_ w1 pi w2,
    refunds_create stripe pid w0 = (inr refund_, w1)
    /\ paymentIntents_retrieve stripe pid w1 = (inr pi, w2)
    /\ (truthy (pi_transfer_group pi) = false ->
        w = w2 /\ calls = [RefundsCreate pid; PaymentIntentsRetrieve pid])
    /\ (truthy (pi_transfer_group pi) = true ->
        exists ts w3 rs,
          transfers_list_group stripe (pi_transfer_group pi) w2 = (inr ts, w3)
          /\ reversals_succeed stripe w3 ts rs w
          /\ calls = [RefundsCreate pid; PaymentIntentsRetrieve pid;
                      TransfersListGroup (pi_transfer_group pi)]
                     ++ map reversal_call ts).
Proof.
  intros pid Hpid Hrun Hstatus.
  rewrite (refund_unfold stripe req_body w0 Hpid) in Hrun. fold pid in Hrun.
  unfold route, bind, await, ret in Hrun.
  destruct (refunds_create stripe pid w0) as [[e | refund_] w1] eqn:Hrefund;
    [injection Hrun as <- <- <-; discriminate |].
  destruct (paymentIntents_retrieve stripe pid w1) as [[e | pi] w2] eqn:Hpi;
    [injection Hrun as <- <- <-; discriminate |].
  exists refund_, w1, pi, w2. split; [reflexivity |]. split; [exact Hpi |].
  destruct (truthy (pi_transfer_group pi)); simpl in Hrun.
  - split; [discriminate |]. intros _.
    destruct (transfers_list_group stripe _ w2) as [[e | ts] w3] eqn:Hlist;
      [injection Hrun as <- <- <-; discriminate |].
    destruct (reverse_each stripe ts None w3) as [[[e | out] w4] calls4] eqn:Hloop;
      [injection Hrun as <- <- <-; discriminate |].
    destruct (reverse_each_completed ts _ _ _ _ _ Hloop) as (rs & Hok & -> & _).
    injection Hrun as <- <- <-. rewrite app_nil_r.
    exists ts, w3, rs. auto.
  - split; [| discriminate]. intros _. injection Hrun as <- <- <-. auto.
Qed.

End RefundRuns.

(** ** Further properties of POST /create-payment-intent *)

Section CreatePaymentIntentRuns.

Context {World : Type}.
Variable stripe : @Stripe World.
Variable Date_now : World -> Z.

Lemma create_payment_intent_200 req_body w :
  status (create_payment_intent stripe Date_now req_body w).1.1 = 200 ->
  truthy (get req_body "amount") = true
  /\ truthy (get req_body "customerId") = true
  /\ truthy (get req_body "ownerConnectAccountId") = true
  /\ exists paymentIntent w1,
       paymentIntents_create stripe (create_params req_body (Date_now w)) w
       = (inr paymentIntent, w1).
Proof.
  intros H.
  destruct (truthy (get req_body "amount")) eqn:Ha;
    [| rewrite create_payment_intent_rejected in H by auto; discriminate].
  destruct (truthy (get req_body "customerId")) eqn:Hc;
    [| rewrite create_payment_intent_rejected in H by auto; discriminate].
  destruct (truthy (get req_body "ownerConnectAccountId")) eqn:Ho;
    [| rewrite create_payment_intent_rejected in H by auto; discriminate].
  rewrite (create_payment_intent_accepted stripe Date_now req_body w Ha Hc Ho) in H.
  destruct (paymentIntents_create stripe (create_params req_body (Date_now w)) w)
    as [[err | paymentIntent] w1]; [discriminate |].
  repeat split. eauto.
Qed.

Lemma with_default_present v d : v <> JUndefined -> with_default v d = v.
Proof. destruct v; simpl; congruence. Qed.

(** X5: the route answers 200 exactly when amount, customerId and
    ownerConnectAccountId are truthy and the platform accepts the
    payment intent. *)
Theorem create_payment_intent_200_iff req_body w :
  status (create_payment_intent stripe Date_now req_body w).1.1 = 200
  <-> truthy (get req_body "amount") = true
      /\ truthy (get req_body "customerId") = true
      /\ truthy (get req_body "ownerConnectAccountId") = true
      /\ exists paymentIntent w1,
           paymentIntents_create stripe (create_params req_body (Date_now w)) w
           = (inr paymentIntent, w1).
Proof.
  split; [apply create_payment_intent_200 |].
  intros (Ha & Hc & Ho & paymentIntent & w1 & H).
  rewrite (create_payment_intent_accepted stripe Date_now req_body w Ha Hc Ho), H.
  reflexivity.
Qed.

(** X6: the transferGroup of a 200 answer is the transfer_group that was
    attached to the payment intent upstream, in the one call the route
    issued, whose destination is the ownerConnectAccountId of the body. *)
Theorem create_payment_intent_token_attached req_body w resp w1 calls :
  create_payment_intent stripe Date_now req_body w = (resp, w1, calls) ->
  status resp = 200 ->
  exists params,
    calls = [PaymentIntentsCreate params]
    /\ transferGroup_of resp = Some (pp_transfer_group params)
    /\ pp_transfer_data_destination params = get req_body "ownerConnectAccountId"
    /\ pp_customer params = get req_body "customerId"
    /\ pp_amount params = get req_body "amount".
Proof.
  intros Hrun Hstatus.
  assert (H200 : status (create_payment_intent stripe Date_now req_body w).1.1 = 200)
    by (rewrite Hrun; exact Hstatus).
  apply create_payment_intent_200 in H200
    as (Ha & Hc & Ho & paymentIntent & w2 & Hcreate).
  rewrite (create_payment_intent_accepted stripe Date_now req_body w Ha Hc Ho), Hcreate
    in Hrun.
  injection Hrun as <- <- <-.
  exists (create_params req_body (Date_now w)). repeat split.
Qed.

(** X7: the optional fields. When currency, description or platformFee is
    absent from the body, the call carries "myr", "Rentify booking" or 0;
    when the key is present with any value other than undefined (null,
    an empty string, false), that value is sent as it is. *)
Theorem create_payment_intent_defaults req_body w :
  truthy (get req_body "amount") = true ->
  truthy (get req_body "customerId") = true ->
  truthy (get req_body "ownerConnectAccountId") = true ->
  exists params,
    (create_payment_intent stripe Date_now req_body w).2 = [PaymentIntentsCreate params]
    /\ (req_body !! "currency" = None -> pp_currency params = JStr "myr")
    /\ (req_body !! "description" = None ->
        pp_description params = JStr "Rentify booking")
    /\ (req_body !! "platformFee" = None -> pp_application_fee_amount params = JNum 0)
    /\ (forall v, v <> JUndefined ->
          (req_body !! "currency" = Some v -> pp_currency params = v)
          /\ (req_body !! "description" = Some v -> pp_description params = v)
          /\ (req_body !! "platformFee" = Some v -> pp_application_fee_amount params = v)).
Proof.
  intros Ha Hc Ho. exists (create_params req_body (Date_now w)).
  split.
  - rewrite (create_payment_intent_accepted stripe Date_now req_body w Ha Hc Ho).
    destruct (paymentIntents_create stripe _ w) as [[err | p] w1]; reflexivity.
  - unfold create_params, get; cbn [pp_currency pp_description pp_application_fee_amount].
    split; [intros ->; reflexivity |]. split; [intros ->; reflexivity |].
    split; [intros ->; reflexivity |].
    intros v Hv. repeat split; intros ->; apply with_default_present, Hv.
Qed.

End CreatePaymentIntentRuns.

(** ** Further properties of the transaction histories *)

Lemma by_created_desc_perm l : Permutation (js_sort by_created_desc l) l.
Proof. apply (js_sort_perm tx_created). Qed.

Lemma push_each {A B} (f : A -> B) (xs : list A) :
  forall acc, fold_left (fun acc x => acc ++ [f x]) xs acc = acc ++ map f xs.
Proof.
  induction xs as [| x xs IH]; intros acc; simpl.
  - now rewrite app_nil_r.
  - rewrite IH, <- app_assoc. reflexivity.
Qed.

(** The loop of the owner route appends one payout per transfer and one
    entry per reversal of each transfer, in list order. *)
Lemma owner_loop_spec transfers :
  forall payouts reversals,
    owner_loop transfers payouts reversals
    = (payouts ++ map payout_of_transfer transfers,
       reversals ++ flat_map reversals_of_transfer transfers).
Proof.
  induction transfers as [| t ts IH]; intros payouts reversals; simpl.
  - now rewrite !app_nil_r.
  - rewrite IH, push_each, <- !app_assoc. reflexivity.
Qed.

Section TransactionRuns.

Context {World : Type}.
Variable stripe : @Stripe World.

Lemma transactions_renter_run req_body w charges w1 refundsList w2 :
  truthy (get req_body "customerId") = true ->
  charges_list stripe (get req_body "customerId") 50 w = (inr charges, w1) ->
  refunds_list stripe 50 ["data.charge"] w1 = (inr refundsList, w2) ->
  transactions_renter stripe req_body w
  = (json (TransactionsBody
             (js_sort by_created_desc
                (map payment_of_charge charges
                 ++ map transaction_of_refund
                      (List.filter (refund_of_customer (get req_body "customerId"))
                         refundsList)))),
     w2, [ChargesList (get req_body "customerId") 50; RefundsList 50 ["data.charge"]]).
Proof.
  intros Hc H1 H2. unfold transactions_renter, route, bind, await, ret.
  rewrite Hc. simpl. rewrite H1, H2. reflexivity.
Qed.

Lemma transactions_owner_run req_body w transfers w1 :
  truthy (get req_body "connectAccountId") = true ->
  transfers_list_destination stripe (get req_body "connectAccountId") 50 owner_expand w
  = (inr transfers, w1) ->
  transactions_owner stripe req_body w
  = (json (TransactionsBody
             (js_sort by_created_desc
                (map payout_of_transfer transfers
                 ++ flat_map reversals_of_transfer transfers))),
     w1, [TransfersListDestination (get req_body "connectAccountId") 50 owner_expand]).
Proof.
  intros Hc H. unfold transactions_owner, route, bind, await, ret.
  rewrite Hc. simpl. rewrite H, owner_loop_spec. reflexivity.
Qed.

(** X8: the history routes answer 400 without any call when the
    identifier they need is missing or falsy. *)
Theorem transactions_missing_id req_body w :
  (truthy (get req_body "customerId") = false ->
   transactions_renter stripe req_body w
   = (status_json 400 (ErrorBody "Missing customerId"), w, []))
  /\ (truthy (get req_body "connectAccountId") = false ->
      transactions_owner stripe req_body w
      = (status_json 400 (ErrorBody "Missing connectAccountId"), w, [])).
Proof.
  split; intros H.
  - unfold transactions_renter, route. rewrite H. reflexivity.
  - unfold transactions_owner, route. rewrite H. reflexivity.
Qed.

(** X9: a history is all or nothing. When the listing of charges is
    rejected the renter route answers 500 and does not list refunds;
    when the listing of refunds is rejected it answers 500 although the
    charges were listed; the owner route answers 500 when its listing is
    rejected. *)
Theorem transactions_listing_failure req_body w :
  (truthy (get req_body "customerId") = true ->
   (forall err w1,
       charges_list stripe (get req_body "customerId") 50 w = (inl err, w1) ->
       transactions_renter stripe req_body w
       = (status_json 500 (ErrorBody (message err)), w1,
          [ChargesList (get req_body "customerId") 50]))
   /\ (forall charges w1 err w2,
       charges_list stripe (get req_body "customerId") 50 w = (inr charges, w1) ->
       refunds_list stripe 50 ["data.charge"] w1 = (inl err, w2) ->
       transactions_renter stripe req_body w
       = (status_json 500 (ErrorBody (message err)), w2,
          [ChargesList (get req_body "customerId") 50; RefundsList 50 ["data.charge"]])))
  /\ (truthy (get req_body "connectAccountId") = true ->
      forall err w1,
        transfers_list_destination stripe (get req_body "connectAccountId") 50
          owner_expand w = (inl err, w1) ->
        transactions_owner stripe req_body w
        = (status_json 500 (ErrorBody (message err)), w1,
           [TransfersListDestination (get req_body "connectAccountId") 50 owner_expand])).
Proof.
  split.
  - intros Hc. split.
    + intros err w1 H. unfold transactions_renter, route, bind, await.
      rewrite Hc. simpl. rewrite H. reflexivity.
    + intros charges w1 err w2 H1 H2. unfold transactions_renter, route, bind, await.
      rewrite Hc. simpl. rewrite H1, H2. reflexivity.
  - intros Hc err w1 H. unfold transactions_owner, route, bind, await.
    rewrite Hc. simpl. rewrite H. reflexivity.
Qed.

(** X10: the renter's history has one entry per listed charge and one
    per refund of that customer, and nothing else: every listed charge
    appears as a payment going out, and every entry is such a payment or
    a refund coming in. *)
Theorem transactions_renter_entries req_body w charges w1 refundsList w2 :
  let customerId := get req_body "customerId" in
  truthy customerId = true ->
  charges_list stripe customerId 50 w = (inr charges, w1) ->
  refunds_list stripe 50 ["data.charge"] w1 = (inr refundsList, w2) ->
  exists txs,
    (transactions_renter stripe req_body w).1.1 = json (TransactionsBody txs)
    /\ length txs
       = (length charges
          + length (List.filter (refund_of_customer customerId) refundsList))%nat
    /\ (forall c, In c charges -> In (payment_of_charge c) txs)
    /\ (forall x, In x txs ->
          (tx_type x = "payment" /\ tx_direction x = "out"
           /\ exists c, In c charges /\ x = payment_of_charge c)
          \/ (tx_type x = "refund" /\ tx_direction x = "in"
              /\ exists r, In r refundsList /\ x = transaction_of_refund r)).
Proof.
  intros customerId Hc Hcharges Hrefunds.
  pose proof (transactions_renter_run req_body w charges w1 refundsList w2
                Hc Hcharges Hrefunds) as Hrun.
  fold customerId in Hrun.
  pose proof (by_created_desc_perm
                (map payment_of_charge charges
                 ++ map transaction_of_refund
                      (List.filter (refund_of_customer customerId) refundsList)))
    as Hperm.
  eexists. split; [now rewrite Hrun |].
  split; [| split].
  - rewrite (Permutation_length Hperm), length_app, !length_map. reflexivity.
  - intros c Hin. apply (Permutation_in _ (Permutation_sym Hperm)).
    apply in_or_app. left. now apply in_map.
  - intros x Hx. apply (Permutation_in _ Hperm) in Hx.
    apply in_app_or in Hx as [Hx | Hx].
    + apply in_map_iff in Hx as (c & <- & Hin). left. eauto.
    + apply in_map_iff in Hx as (r & <- & Hin).
      apply filter_In in Hin as [Hin _]. right. eauto.
Qed.

(** X11: the owner's history has one incoming transfer entry per listed
    transfer and one outgoing reverse_transfer entry per reversal of a
    listed transfer (none for a transfer without reversals), and nothing
    else. *)
Theorem transactions_owner_entries req_body w transfers w1 :
  let connectAccountId := get req_body "connectAccountId" in
  truthy connectAccountId = true ->
  transfers_list_destination stripe connectAccountId 50 owner_expand w
  = (inr transfers, w1) ->
  exists txs,
    (transactions_owner stripe req_body w).1.1 = json (TransactionsBody txs)
    /\ Permutation txs
         (map payout_of_transfer transfers ++ flat_map reversals_of_transfer transfers)
    /\ length txs
       = (length transfers
          + list_sum (map (fun t => length (default [] (tr_reversals t))) transfers))%nat.
Proof.
  intros connectAccountId Hc Htransfers.
  pose proof (transactions_owner_run req_body w transfers w1 Hc Htransfers) as Hrun.
  pose proof (by_created_desc_perm
                (map payout_of_transfer transfers
                 ++ flat_map reversals_of_transfer transfers)) as Hperm.
  eexists. split; [now rewrite Hrun |]. split; [exact Hperm |].
  rewrite (Permutation_length Hperm), length_app, length_map. f_equal.
  clear. induction transfers as [| t ts IH]; simpl; [reflexivity |].
  rewrite length_app, IH. unfold reversals_of_transfer. now rewrite length_map.
Qed.

End TransactionRuns.

(** ** Further properties of DELETE /stripe/delete-accounts *)

Section DeleteAccountsRuns.

Context {World : Type}.
Variable stripe : @Stripe World.

(** X12: with neither customerId nor connectAccountId the route answers
    400 with success = false and no details, and deletes nothing. *)
Theorem delete_accounts_no_ids req_body w :
  truthy (get req_body "customerId") = false ->
  truthy (get req_body "connectAccountId") = false ->
  delete_accounts stripe req_body w
  = (status_json 400 (DeleteBody false "No Stripe IDs provided." None), w, []).
Proof.
  intros Hc Ha. unfold delete_accounts, route. rewrite Hc, Ha. reflexivity.
Qed.

(** X13: with both identifiers the two deletions are always attempted,
    the customer first and the account second, also when the first one
    is rejected; each flag of the details tells whether its own deletion
    was accepted. *)
Theorem delete_accounts_both_attempted req_body w :
  let customerId := get req_body "customerId" in
  let connectAccountId := get req_body "connectAccountId" in
  truthy customerId = true ->
  truthy connectAccountId = true ->
  exists r1 w1 r2 w2,
    customers_del stripe customerId w = (r1, w1)
    /\ accounts_del stripe connectAccountId w1 = (r2, w2)
    /\ delete_accounts stripe req_body w
       = (json (DeleteBody true "Deletion attempted."
                  (Some {| customerDeleted := Some (accepted r1);
                           connectAccountDeleted := Some (accepted r2) |})),
          w2, [CustomersDel customerId; AccountsDel connectAccountId]).
Proof.
  intros customerId connectAccountId Hc Ha.
  unfold delete_accounts, route, bind, try_catch, await, ret.
  fold customerId. fold connectAccountId. rewrite Hc, Ha. simpl.
  destruct (customers_del stripe customerId w) as [r1 w1] eqn:H1.
  destruct (accounts_del stripe connectAccountId w1) as [r2 w2] eqn:H2.
  exists r1, w1, r2, w2. split; [reflexivity |]. split; [exact H2 |].
  destruct r1 as [e1 | []]; simpl; rewrite H2; destruct r2 as [e2 | []]; reflexivity.
Qed.

(** X14: the route never answers 500. It answers 400 when both
    identifiers are missing or falsy and 200 otherwise, whatever the
    platform does. *)
Theorem delete_accounts_never_500 req_body w :
  let resp := (delete_accounts stripe req_body w).1.1 in
  (status resp = 400
   <-> truthy (get req_body "customerId") = false
       /\ truthy (get req_body "connectAccountId") = false)
  /\ (status resp = 200
      <-> truthy (get req_body "customerId") = true
          \/ truthy (get req_body "connectAccountId") = true)
  /\ status resp <> 500.
Proof.
  unfold delete_accounts, route, bind, try_catch, await, ret.
  destruct (truthy (get req_body "customerId")),
    (truthy (get req_body "connectAccountId")); simpl.
  - destruct (customers_del stripe _ w) as [[e1 | []] w1]; simpl;
      destruct (accounts_del stripe _ w1) as [[e2 | []] w2]; simpl;
      (split; [split; [discriminate | intros []; discriminate] |]);
      (split; [split; auto |]); discriminate.
  - destruct (customers_del stripe _ w) as [[e1 | []] w1]; simpl;
      (split; [split; [discriminate | intros []; discriminate] |]);
      (split; [split; auto |]); discriminate.
  - destruct (accounts_del stripe _ w) as [[e2 | []] w2]; simpl;
      (split; [split; [discriminate | intros []; discriminate] |]);
      (split; [split; auto |]); discriminate.
  - split; [split; auto |].
    split; [split; [discriminate | intros []; discriminate] | discriminate].
Qed.

(** X15: the two flags are not symmetric. Without a customerId and with
    a connectAccountId, the details have no customerDeleted key at all
    (whereas a missing connectAccountId is reported as deleted), and the
    only call is the deletion of the account. *)
Theorem delete_accounts_without_customer req_body w :
  let connectAccountId := get req_body "connectAccountId" in
  truthy (get req_body "customerId") = false ->
  truthy connectAccountId = true ->
  exists r w1,
    accounts_del stripe connectAccountId w = (r, w1)
    /\ delete_accounts stripe req_body w
       = (json (DeleteBody true "Deletion attempted."
                  (Some {| customerDeleted := None;
                           connectAccountDeleted := Some (accepted r) |})),
          w1, [AccountsDel connectAccountId]).
Proof.
  intros connectAccountId Hc Ha.
  unfold delete_accounts, route, bind, try_catch, await, ret.
  fold connectAccountId. rewrite Hc, Ha. simpl.
  destruct (accounts_del stripe connectAccountId w) as [r w1] eqn:H.
  exists r, w1. split; [reflexivity |].
  destruct r as [e | []]; reflexivity.
Qed.

End DeleteAccountsRuns.

(** ** Properties of the onboarding and card routes *)

Section SetupRuns.

Context {World : Type}.
Variable sdk : @StripeSetup World.

Lemma relay_run {A} c (f : @Upstream World A) ok w :
  exists resp w1,
    relay c f ok w = (resp, w1, [c])
    /\ (su_status resp = 200 \/ su_status resp = 500)
    /\ (su_status resp = 200 <-> exists a, f w = (inr a, w1)).
Proof.
  unfold relay. destruct (f w) as [[err | a] w1]; eexists _, _;
    (split; [reflexivity |]); simpl; split; auto; split;
    try discriminate; eauto.
  intros (a & H). discriminate.
Qed.

(** X16: the onboarding and card routes validate nothing. Whatever the
    body holds, also when it is empty, each of them issues exactly one
    SDK call and answers 200 or 500, never 400. *)
Theorem setup_routes_no_validation req_body customerId w :
  Forall (fun h : SetupHandler =>
            length (h w).2 = 1%nat
            /\ (su_status (h w).1.1 = 200 \/ su_status (h w).1.1 = 500))
    [create_stripe_customer sdk req_body;
     create_connect_account sdk req_body;
     create_connect_account_link sdk req_body;
     create_setup_intent sdk req_body;
     create_ephemeral_key sdk req_body;
     list_payment_methods sdk customerId;
     detach_payment_method sdk req_body].
Proof.
  unfold create_stripe_customer, create_connect_account, create_connect_account_link,
    create_setup_intent, create_ephemeral_key, list_payment_methods,
    detach_payment_method.
  repeat (apply Forall_cons; split); try (apply Forall_nil; exact I); cbv beta zeta;
    match goal with
    | |- context [relay ?c ?f ?ok ?w0] =>
        destruct (relay_run c f ok w0) as (resp & w1 & -> & H & _)
    end; (split; [reflexivity | exact H]).
Qed.

(** X17: the customer's metadata. POST /create-stripe-customer sends
    [metadata.userId] as the empty string when userId is absent or null,
    and sends any other value, also 0, false or the empty string, as it
    is; email and name are passed on unchanged. *)
Theorem create_stripe_customer_user_id req_body w :
  exists userId,
    (create_stripe_customer sdk req_body w).2
    = [CustomersCreate (get req_body "email") (get req_body "name") userId]
    /\ (req_body !! "userId" = None \/ req_body !! "userId" = Some JNull ->
        userId = JStr "")
    /\ (forall v, req_body !! "userId" = Some v ->
          v <> JNull -> v <> JUndefined -> userId = v).
Proof.
  exists (js_nullish (get req_body "userId") (JStr "")). split.
  - unfold create_stripe_customer, relay.
    destruct (customers_create sdk _ _ _ w) as [[err | a] w1]; reflexivity.
  - unfold get. split.
    + intros [-> | ->]; reflexivity.
    + intros v -> Hn Hu. destruct v; simpl; congruence.
Qed.

End SetupRuns.

(** ** Further runs on the scripted platform *)

Lemma refund_missing_payment_intent_witness :
  refund mock_stripe {[ "paymentIntentId" := JStr "" ]} (mock [] JNull [] [] [] [])
  = (status_json 400 (ErrorBody "Missing paymentIntentId"), mock [] JNull [] [] [] [], []).
Proof.
  apply (proj1 (refund_missing_payment_intent mock_stripe
                  {[ "paymentIntentId" := JStr "" ]} (mock [] JNull [] [] [] []))).
  reflexivity.
Defined.

Lemma refund_no_transfers_found_witness :
  refund mock_stripe refund_request (mock [] (JStr "booking_1") [] [] [] [])
  = (json (RefundBody true "re_1" (JStr "succeeded") false (Some None)),
     mock [] (JStr "booking_1") [] [] [] [],
     [RefundsCreate (JStr "pi_1"); PaymentIntentsRetrieve (JStr "pi_1");
      TransfersListGroup (JStr "booking_1")]).
Proof.
  erewrite (refund_no_transfers_found mock_stripe refund_request
              (mock [] (JStr "booking_1") [] [] [] [])); cycle 1.
  - reflexivity.
  - reflexivity.
  - reflexivity.
  - reflexivity.
  - reflexivity.
  - reflexivity.
Defined.

Lemma refund_issued_first_and_once_witness :
  exists rest,
    (refund mock_stripe refund_request
       (mock [] (JStr "booking_1") [transfer_1; transfer_2] ["tr_2"] [] [])).2
    = RefundsCreate (JStr "pi_1") :: rest
    /\ Forall (fun c => follows_refund c = true) rest.
Proof.
  apply (refund_issued_first_and_once mock_stripe refund_request
           (mock [] (JStr "booking_1") [transfer_1; transfer_2] ["tr_2"] [] [])).
  reflexivity.
Defined.

Lemma refund_ok_means_all_reversed_witness :
  exists rs w,
    reversals_succeed mock_stripe
      (mock [] (JStr "booking_1") [transfer_1; transfer_2] [] [] [])
      [transfer_1; transfer_2] rs w
    /\ mk_reversed w = ["tr_2"; "tr_1"].
Proof.
  edestruct (refund_ok_means_all_reversed mock_stripe refund_request
               (mock [] (JStr "booking_1") [transfer_1; transfer_2] [] [] []))
    as (refund_ & w1 & pi & w2 & Hrefund & Hpi & _ & Hgroup).
  - reflexivity.
  - reflexivity.
  - reflexivity.
  - injection Hrefund as <- <-. injection Hpi as <- <-.
    destruct (Hgroup eq_refl) as (ts & w3 & rs & Hlist & Hok & _).
    injection Hlist as <- <-. exists rs. eexists. split; [exact Hok | reflexivity].
Defined.

Lemma create_payment_intent_200_iff_witness :
  status (create_payment_intent mock_stripe mk_clock (booking_request 10000 500)
            (mock [] JNull [] [] [] [])).1.1 = 200.
Proof.
  apply (create_payment_intent_200_iff mock_stripe mk_clock).
  repeat split. eexists _, _. reflexivity.
Defined.

Lemma create_payment_intent_token_attached_witness :
  exists params,
    (create_payment_intent mock_stripe mk_clock (booking_request 10000 500)
       (mock [] JNull [] [] [] [])).2 = [PaymentIntentsCreate params]
    /\ pp_transfer_group params = "booking_1700000000000"
    /\ pp_transfer_data_destination params = JStr "acct_1".
Proof.
  edestruct (create_payment_intent_token_attached mock_stripe mk_clock
               (booking_request 10000 500) (mock [] JNull [] [] [] []))
    as (params & Hcalls & Htoken & Hdest & _).
  - reflexivity.
  - reflexivity.
  - exists params. split; [exact Hcalls |]. split; [| exact Hdest].
    injection Htoken as <-. reflexivity.
Defined.

Lemma create_payment_intent_defaults_witness :
  exists params,
    (create_payment_intent mock_stripe mk_clock
       {[ "amount" := JNum 10000; "customerId" := JStr "cus_1";
          "ownerConnectAccountId" := JStr "acct_1"; "platformFee" := JNull ]}
       (mock [] JNull [] [] [] [])).2 = [PaymentIntentsCreate params]
    /\ pp_currency params = JStr "myr"
    /\ pp_application_fee_amount params = JNull.
Proof.
  edestruct (create_payment_intent_defaults mock_stripe mk_clock
               {[ "amount" := JNum 10000; "customerId" := JStr "cus_1";
                  "ownerConnectAccountId" := JStr "acct_1"; "platformFee" := JNull ]}
               (mock [] JNull [] [] [] []))
    as (params & Hcalls & Hcurrency & _ & _ & Hpresent).
  - reflexivity.
  - reflexivity.
  - reflexivity.
  - exists params. split; [exact Hcalls |]. split; [apply Hcurrency; reflexivity |].
    apply (Hpresent JNull); [discriminate | reflexivity].
Defined.

Lemma transactions_missing_id_witness :
  transactions_renter mock_stripe ∅ (mock [] JNull [] [] [] [])
  = (status_json 400 (ErrorBody "Missing customerId"), mock [] JNull [] [] [] [], [])
  /\ transactions_owner mock_stripe ∅ (mock [] JNull [] [] [] [])
     = (status_json 400 (ErrorBody "Missing connectAccountId"),
        mock [] JNull [] [] [] [], []).
Proof.
  destruct (transactions_missing_id mock_stripe ∅ (mock [] JNull [] [] [] []))
    as [Hrenter Howner].
  split; [apply Hrenter | apply Howner]; reflexivity.
Defined.

Lemma transactions_listing_failure_witness :
  transactions_renter mock_stripe {[ "customerId" := JStr "cus_1" ]}
    (mock ["refunds.list"] JNull [] [] [charge_of "ch_1" "cus_1" 1700000000] [])
  = (status_json 500 (ErrorBody "refunds.list rejected"),
     mock ["refunds.list"] JNull [] [] [charge_of "ch_1" "cus_1" 1700000000] [],
     [ChargesList (JStr "cus_1") 50; RefundsList 50 ["data.charge"]]).
Proof.
  destruct (transactions_listing_failure mock_stripe {[ "customerId" := JStr "cus_1" ]}
              (mock ["refunds.list"] JNull [] []
                 [charge_of "ch_1" "cus_1" 1700000000] []))
    as [Hrenter _].
  destruct (Hrenter eq_refl) as [_ Hrefunds].
  apply (Hrefunds [charge_of "ch_1" "cus_1" 1700000000]
           (mock ["refunds.list"] JNull [] [] [charge_of "ch_1" "cus_1" 1700000000] [])
           {| message := "refunds.list rejected" |}); reflexivity.
Defined.

Lemma transactions_renter_entries_witness :
  exists txs,
    (transactions_renter mock_stripe {[ "customerId" := JStr "cus_1" ]}
       (mock [] JNull [] []
          [charge_of "ch_1" "cus_1" 1700000000; charge_of "ch_3" "cus_1" 1700000500]
          [refund_of "re_1" 1700000200 (charge_of "ch_1" "cus_1" 1700000000);
           refund_of "re_2" 1700000400 (charge_of "ch_2" "cus_2" 1700000050)])).1.1
    = json (TransactionsBody txs)
    /\ length txs = 3%nat.
Proof.
  edestruct (transactions_renter_entries mock_stripe {[ "customerId" := JStr "cus_1" ]}
               (mock [] JNull [] []
                  [charge_of "ch_1" "cus_1" 1700000000; charge_of "ch_3" "cus_1" 1700000500]
                  [refund_of "re_1" 1700000200 (charge_of "ch_1" "cus_1" 1700000000);
                   refund_of "re_2" 1700000400 (charge_of "ch_2" "cus_2" 1700000050)]))
    as (txs & Hrun & Hlen & _).
  - reflexivity.
  - reflexivity.
  - reflexivity.
  - exists txs. split; [exact Hrun | exact Hlen].
Defined.

Lemma transactions_owner_entries_witness :
  exists txs,
    (transactions_owner mock_stripe {[ "connectAccountId" := JStr "acct_1" ]}
       (mock [] JNull [transfer_1; transfer_2] [] [] [])).1.1
    = json (TransactionsBody txs)
    /\ length txs = 3%nat.
Proof.
  edestruct (transactions_owner_entries mock_stripe
               {[ "connectAccountId" := JStr "acct_1" ]}
               (mock [] JNull [transfer_1; transfer_2] [] [] []))
    as (txs & Hrun & _ & Hlen).
  - reflexivity.
  - reflexivity.
  - exists txs. split; [exact Hrun | exact Hlen].
Defined.

Lemma delete_accounts_no_ids_witness :
  delete_accounts mock_stripe {[ "customerId" := JStr "" ]} (mock [] JNull [] [] [] [])
  = (status_json 400 (DeleteBody false "No Stripe IDs provided." None),
     mock [] JNull [] [] [] [], []).
Proof.
  apply (delete_accounts_no_ids mock_stripe {[ "customerId" := JStr "" ]}
           (mock [] JNull [] [] [] [])); reflexivity.
Defined.

Lemma delete_accounts_both_attempted_witness :
  delete_accounts mock_stripe
    {[ "customerId" := JStr "cus_1"; "connectAccountId" := JStr "acct_1" ]}
    (mock ["customers.del"] JNull [] [] [] [])
  = (json (DeleteBody true "Deletion attempted."
             (Some {| customerDeleted := Some false; connectAccountDeleted := Some true |})),
     mock ["customers.del"] JNull [] [] [] [],
     [CustomersDel (JStr "cus_1"); AccountsDel (JStr "acct_1")]).
Proof.
  edestruct (delete_accounts_both_attempted mock_stripe
               {[ "customerId" := JStr "cus_1"; "connectAccountId" := JStr "acct_1" ]}
               (mock ["customers.del"] JNull [] [] [] []))
    as (r1 & w1 & r2 & w2 & H1 & H2 & Hrun).
  - reflexivity.
  - reflexivity.
  - rewrite Hrun. injection H1 as <- <-. injection H2 as <- <-. reflexivity.
Defined.

Lemma delete_accounts_never_500_witness :
  status (delete_accounts mock_stripe {[ "connectAccountId" := JStr "acct_1" ]}
            (mock ["accounts.del"] JNull [] [] [] [])).1.1 = 200.
Proof.
  apply (delete_accounts_never_500 mock_stripe
           {[ "connectAccountId" := JStr "acct_1" ]}
           (mock ["accounts.del"] JNull [] [] [] [])).
  right. reflexivity.
Defined.

Lemma delete_accounts_without_customer_witness :
  delete_accounts mock_stripe {[ "connectAccountId" := JStr "acct_1" ]}
    (mock [] JNull [] [] [] [])
  = (json (DeleteBody true "Deletion attempted."
             (Some {| customerDeleted := None; connectAccountDeleted := Some true |})),
     mock [] JNull [] [] [] [],
     [AccountsDel (JStr "acct_1")]).
Proof.
  edestruct (delete_accounts_without_customer mock_stripe
               {[ "connectAccountId" := JStr "acct_1" ]} (mock [] JNull [] [] [] []))
    as (r & w1 & H & Hrun).
  - reflexivity.
  - reflexivity.
  - rewrite Hrun. injection H as <- <-. reflexivity.
Defined.

Lemma create_stripe_customer_user_id_witness :
  (create_stripe_customer mock_setup
     {[ "email" := JStr "a@example.com"; "userId" := JNum 0 ]}
     (mock [] JNull [] [] [] [])).2
  = [CustomersCreate (JStr "a@example.com") JUndefined (JNum 0)].
Proof.
  destruct (create_stripe_customer_user_id mock_setup
              {[ "email" := JStr "a@example.com"; "userId" := JNum 0 ]}
              (mock [] JNull [] [] [] []))
    as (userId & Hcalls & _ & Hkept).
  rewrite Hcalls. rewrite (Hkept (JNum 0)); [reflexivity | reflexivity | | ]; discriminate.
Defined.
